(** * datatableview.views.legacy: column resolution and response assembly

    A shallow embedding of [datatableview/views/legacy.py]: the column
    definition normaliser, the ordering map of [DatatableStructure], the
    resolver dispatcher, the default attribute-chain resolver, the row and
    response assemblers and the pagination slicer, followed by the
    properties proved about them.

    Python values are an inductive type, exceptions are the [Raise] branch
    of a result type threaded with a bind notation, dictionaries with string
    keys are [gmap]s where only lookups matter and insertion-ordered
    association lists where the key sequence is observed, and callables are
    identifiers interpreted by a function table. *)

From Stdlib Require Import ZArith Ascii String List Lia.
From stdpp Require Import base tactics option list numbers strings pretty gmap.

Local Open Scope Z_scope.
Set Warnings "-register-all".

(* ===================================================================== *)
(** ** Exceptions and results *)
(* ===================================================================== *)

(** The exception classes that occur in the module.  [ObjectDoesNotExist]
    stands for [django.core.exceptions.ObjectDoesNotExist] and its
    subclasses (the [DoesNotExist] a related descriptor raises);
    [OtherError] is any exception class raised by user code. *)
Inductive exn : Type :=
| AttributeError
| ObjectDoesNotExist
| NameError (name : string)
| ValueError (msg : string)
| IndexError
| TypeError
| OtherError (tag : string).

Inductive result (A : Type) : Type :=
| Ok (a : A)
| Raise (e : exn).
Arguments Ok {A} a.
Arguments Raise {A} e.

Definition bind {A B : Type} (r : result A) (k : A -> result B) : result B :=
  match r with
  | Ok a => k a
  | Raise e => Raise e
  end.

Notation "x <- r ;; k" := (bind r (fun x => k))
  (at level 100, r at next level, right associativity).

(** [mapM f l]: a comprehension [[f(x) for x in l]] whose body may raise. *)
Fixpoint mapM {A B : Type} (f : A -> result B) (l : list A) : result (list B) :=
  match l with
  | [] => Ok []
  | x :: xs => y <- f x ;; ys <- mapM f xs ;; Ok (y :: ys)
  end.

Definition is_ok {A : Type} (r : result A) : bool :=
  match r with Ok _ => true | Raise _ => false end.

(** The name of the class an exception is an instance of. *)
Definition exn_class (e : exn) : string :=
  match e with
  | AttributeError => "AttributeError"
  | ObjectDoesNotExist => "ObjectDoesNotExist"
  | NameError _ => "NameError"
  | ValueError _ => "ValueError"
  | IndexError => "IndexError"
  | TypeError => "TypeError"
  | OtherError tag => tag
  end.

(* ===================================================================== *)
(** ** Python values *)
(* ===================================================================== *)

(** Classes that [isinstance] tests in the module distinguish. *)
Inductive pyclass : Type :=
| PlainObject
| ModelInstance      (* django.db.models.Model *)
| ManagerInstance.   (* django.db.models.Manager *)

(** Identifier of a callable in the function table. *)
Definition fn_id : Type := nat.

(** [VObject cls text attrs]: an instance of [cls] whose text form
    ([six.text_type(obj)]) is [text] and whose attribute [name] is looked up
    in [attrs]; an attribute is either a value or a descriptor that raises
    when read (a related-object descriptor raising [ObjectDoesNotExist]).
    [VCallable f is_manager alters_data]: a callable; [is_manager] says
    whether it is an instance of [Manager], [alters_data] is its
    [alters_data] attribute when it has one.
    [VView]: a reference to the view instance ([self]). *)
Inductive value : Type :=
| VNone
| VBool (b : bool)
| VInt (n : Z)
| VStr (s : string)
| VTuple (xs : list value)
| VList (xs : list value)
| VDict (kvs : list (string * value))
| VObject (cls : pyclass) (text : string) (attrs : list (string * result value))
| VCallable (f : fn_id) (is_manager : bool) (alters_data : option value)
| VView.

Definition is_none (v : value) : bool :=
  match v with VNone => true | _ => false end.

(** [isinstance(v, (tuple, list))]. *)
Definition is_tuple_or_list (v : value) : bool :=
  match v with VTuple _ | VList _ => true | _ => false end.

(** The elements of a tuple or list. *)
Definition elements (v : value) : list value :=
  match v with VTuple xs | VList xs => xs | _ => [] end.

(** [callable(v)]: functions, bound methods and instances with a
    [__call__] method are all [VCallable]. *)
Definition callable (v : value) : bool :=
  match v with VCallable _ _ _ => true | _ => false end.

(** Truth value of [v] in a condition ([if v:]); an object that defines no
    truth value of its own is true. *)
Definition truthy (v : value) : bool :=
  match v with
  | VNone => false
  | VBool b => b
  | VInt n => negb (n =? 0)
  | VStr s => negb (String.eqb s "")
  | VTuple xs | VList xs => match xs with [] => false | _ => true end
  | VDict kvs => match kvs with [] => false | _ => true end
  | VObject _ _ _ | VCallable _ _ _ | VView => true
  end.

(** Association-list lookup, first binding wins. *)
Fixpoint assoc {A : Type} (k : string) (l : list (string * A)) : option A :=
  match l with
  | [] => None
  | (k', a) :: rest => if String.eqb k k' then Some a else assoc k rest
  end.

(** [d[k] = v] on an insertion-ordered dictionary: an existing key keeps its
    place and gets the new value, a new key is appended. *)
Fixpoint dict_set {A : Type} (k : string) (v : A) (d : list (string * A))
  : list (string * A) :=
  match d with
  | [] => [(k, v)]
  | (k', a) :: rest =>
      if String.eqb k k' then (k', v) :: rest else (k', a) :: dict_set k v rest
  end.

(** [sep.join(parts)]. *)
Fixpoint join (sep : string) (parts : list string) : string :=
  match parts with
  | [] => ""
  | [p] => p
  | p :: rest => p +:+ sep +:+ join sep rest
  end.

(** [str(i)] and ['%d' % i] for a column index. *)
Definition str_of_index (i : nat) : string := pretty i.

(* ===================================================================== *)
(** ** Strings: the [str] methods and regular expressions the module uses *)
(* ===================================================================== *)

(** A text is held as its UTF-8 encoding, a string of bytes.  The methods
    and patterns the module uses look for characters of ASCII only (the
    signs, the underscores of [split], the brackets of the tag pattern), and
    these work on the encoding as they do on the text; the mangling pattern
    and [len] look at whole characters, which [characters] gives. *)
Definition is_digit (c : ascii) : bool :=
  let n := N_of_ascii c in ((48 <=? n) && (n <=? 57))%N.

Definition is_letter (c : ascii) : bool :=
  let n := N_of_ascii c in
  (((65 <=? n) && (n <=? 90)) || ((97 <=? n) && (n <=? 122)))%N.

(** The letters and digits of ASCII. *)
Definition is_alnum (c : ascii) : bool := is_letter c || is_digit c.

Definition is_ascii (b : ascii) : bool := (N_of_ascii b <? 128)%N.

(** The bytes [10xxxxxx] that continue a character. *)
Definition is_continuation (b : ascii) : bool :=
  let n := N_of_ascii b in ((128 <=? n) && (n <? 192))%N.

(** The number of bytes that follow the first byte [b] of a character:
    none for ASCII, one to three after [110xxxxx], [1110xxxx] and
    [11110xxx]. *)
Definition trailing_bytes (b : ascii) : nat :=
  let n := N_of_ascii b in
  if (n <? 192)%N then 0
  else if (n <? 224)%N then 1
  else if (n <? 240)%N then 2
  else if (n <? 248)%N then 3
  else 0.

(** The continuation bytes at the head of [s], [n] of them at most, and what
    follows them. *)
Fixpoint take_continuation (n : nat) (s : string) : string * string :=
  match n, s with
  | S n', String b rest =>
      if is_continuation b then
        let '(taken, rest') := take_continuation n' rest in
        (String b taken, rest')
      else ("", s)
  | _, _ => ("", s)
  end.

Fixpoint characters_from (fuel : nat) (s : string) : list string :=
  match fuel, s with
  | S fuel', String b rest =>
      let '(trail, rest') := take_continuation (trailing_bytes b) rest in
      String b trail :: characters_from fuel' rest'
  | _, _ => []
  end.

(** The characters of a text, each as its encoding.  Bytes that encode no
    character, which no text holds, are cut off one by one or with the
    continuation bytes that follow them. *)
Definition characters (s : string) : list string :=
  characters_from (String.length s) s.

(** [re.sub('[cls]+', repl, s)] on the characters of [s]: scanning left to
    right, each maximal run of characters of the class is replaced by one
    [repl].  [in_run] says that the previous character belonged to a run
    already replaced. *)
Fixpoint re_sub_runs (cls : string -> bool) (repl : string) (in_run : bool)
  (cs : list string) : string :=
  match cs with
  | [] => ""
  | c :: rest =>
      if cls c then
        if in_run then re_sub_runs cls repl true rest
        else repl +:+ re_sub_runs cls repl true rest
      else c +:+ re_sub_runs cls repl false rest
  end.

Definition rev_string (l : list ascii) : string :=
  string_of_list_ascii (rev l).

(** [re.sub(r'<[^>]+>', '', s)].  [tag] is [None] outside a candidate match
    and [Some buf] after a ["<"], [buf] holding (in reverse) the characters
    read since; a [">"] closes the match when [buf] is not empty, and a
    candidate that never closes is kept as it is. *)
Fixpoint strip_tags_go (tag : option (list ascii)) (s : string) : string :=
  match s, tag with
  | EmptyString, None => ""
  | EmptyString, Some buf => String "<" (rev_string buf)
  | String c rest, None =>
      if Ascii.eqb c "<" then strip_tags_go (Some []) rest
      else String c (strip_tags_go None rest)
  | String c rest, Some buf =>
      if Ascii.eqb c ">" then
        match buf with
        | [] => String "<" (String ">" (strip_tags_go None rest))
        | _ => strip_tags_go None rest
        end
      else strip_tags_go (Some (c :: buf)) rest
  end.

Definition strip_tags (s : string) : string := strip_tags_go None s.

(** [s.split('__')]: the pieces between the non-overlapping occurrences of
    the separator found from the left; never the empty list. *)
Fixpoint split_dunder (s : string) : list string :=
  match s with
  | EmptyString => [""]
  | String c rest =>
      match c, rest with
      | "_"%char, String "_" rest' => "" :: split_dunder rest'
      | _, _ =>
          match split_dunder rest with
          | piece :: pieces => String c piece :: pieces
          | [] => [String c ""]
          end
      end
  end.

(** [s.lstrip(chars)]. *)
Fixpoint lstrip (chars : list ascii) (s : string) : string :=
  match s with
  | EmptyString => ""
  | String c rest => if bool_decide (c ∈ chars) then lstrip chars rest else s
  end.

(** [s[0]]. *)
Definition first_char (s : string) : result ascii :=
  match s with
  | EmptyString => Raise IndexError
  | String c _ => Ok c
  end.

(* ===================================================================== *)
(** ** Column definition normaliser *)
(* ===================================================================== *)

(** [FieldDefinitionTuple = namedtuple(..., ['pretty_name', 'fields',
    'callback'])]. *)
Record FieldDefinitionTuple : Type := {
  pretty_name : value;
  fields : value;
  callback : value
}.

Definition invalid_format : exn := ValueError "Invalid field definition format.".

(** [get_field_definition(field_definition)]. *)
Definition get_field_definition (field_definition : value)
  : result FieldDefinitionTuple :=
  let field_definition :=
    if is_tuple_or_list field_definition then elements field_definition
    else [field_definition] in
  field <-
    (if (length field_definition =? 1)%nat then
       Ok [VNone; VList field_definition; VNone]
     else if (length field_definition =? 2)%nat then
       Ok (field_definition ++ [VNone])
     else if (length field_definition =? 3)%nat then
       Ok field_definition
     else Raise invalid_format) ;;
  let field1 := nth 1 field VNone in
  let field1 := if is_tuple_or_list field1 then field1 else VTuple [field1] in
  let field1 :=
    VTuple (List.filter (fun name => negb (is_none name)) (elements field1)) in
  Ok {| pretty_name := nth 0 field VNone;
        fields := field1;
        callback := nth 2 field VNone |}.

(* ===================================================================== *)
(** ** Options, ordering tuples and the view *)
(* ===================================================================== *)

(** [DatatableOptions] (declared in [datatableview.utils]), by its keys;
    [DEFAULT_OPTIONS] lists them with their defaults. *)
Record DatatableOptions : Type := {
  columns : list value;
  ordering : list string;
  start_offset : Z;
  page_length : Z;
  search : string;
  search_fields : list string;
  unsortable_columns : list string;
  hidden_columns : list string;
  structure_template : string;
  result_counter_id : string
}.

Definition DEFAULT_OPTIONS : DatatableOptions := {|
  columns := [];
  ordering := [];
  start_offset := 0;
  page_length := 25;
  search := "";
  search_fields := [];
  unsortable_columns := [];
  hidden_columns := [];
  structure_template := "datatableview/legacy_structure.html";
  result_counter_id := "id_count"
|}.

(** [ColumnOrderingTuple = namedtuple(..., ['order', 'column_index',
    'direction'])]. *)
Record ColumnOrderingTuple : Type := {
  order : nat;
  column_index : Z;
  direction : string
}.

(** The state [DatatableStructure.__init__] leaves on the instance;
    [structure_ordering] is [self.ordering]. *)
Record DatatableStructure : Type := {
  url : string;
  options : DatatableOptions;
  model : value;
  structure_ordering : gmap string ColumnOrderingTuple
}.

(** A view instance: [view_attrs] is what [getattr(self, name)] finds (the
    resolver methods a subclass defines), [request_GET] is
    [self.request.GET], [datatable_options] is what
    [self._get_datatable_options()] returns, and [preload_record_data] is
    the overridable hook of that name. *)
Record View : Type := {
  view_attrs : gmap string value;
  request_GET : gmap string string;
  datatable_options : DatatableOptions;
  preload_record_data : value -> result value
}.

(** [ObjectListResult]: a list carrying the two counters. *)
Record ObjectListResult : Type := {
  items : list value;
  _dtv_total_initial_record_count : value;
  _dtv_unpaged_total : value
}.

(** [ColumnInfoTuple = namedtuple(..., ['pretty_name', 'attrs'])]. *)
Record ColumnInfoTuple : Type := {
  info_pretty_name : value;
  attrs : string
}.

(** The attributes of a [LegacyDatatableMixin] instance that
    [_get_datatable_options] reads and writes; [_datatable_options] is
    [None] when the instance has no attribute of that name. *)
Record MixinState : Type := {
  self_model : value;
  self_GET : gmap string string;
  _datatable_options : option DatatableOptions
}.

(** The attribute of a [LegacyConfigurationDatatableMixin] instance that
    [_get_datatable_options] reads and writes: [None] when the instance has
    no attribute [_datatable_options], the options object otherwise. *)
Record ConfigurationState : Type := {
  configured_options : option value
}.

(** A [LegacyConfigurationDatatableMixin] instance: its [model], its
    [request] when it has one (the path and the query parameters), and the
    options it holds. *)
Record ConfigurationView : Type := {
  view_model : value;
  view_request : option (value * value);
  view_state : ConfigurationState
}.

(** What [_get_resolver_method] returns beside the flag: a value found on
    the column or the view, or the bound method
    [self._get_column_data_default]. *)
Inductive resolver : Type :=
| ResolverValue (f : value)
| DefaultResolver.

(* ===================================================================== *)
(** ** The module namespace *)
(* ===================================================================== *)

(** Names bound at module level in [legacy.py]: its imports, assignments,
    functions and classes, in source order. *)
Definition module_globals : list string :=
  [ "json"; "re"; "logging"; "namedtuple"; "reduce";
    "Model"; "Manager"; "ListView"; "MultipleObjectMixin"; "HttpResponse";
    "flatatt"; "render_to_string"; "settings"; "force_text";
    "python_2_unicode_compatible"; "six"; "DatatableMixin"; "Datatable";
    "LegacyDatatable"; "apply_options"; "get_datatable_structure";
    "DatatableOptions"; "OPTION_NAME_MAP"; "DEFAULT_PAGE_LENGTH";
    "MINIMUM_PAGE_LENGTH"; "log"; "_javascript_boolean";
    "FieldDefinitionTuple"; "ColumnOrderingTuple"; "ColumnInfoTuple";
    "DEFAULT_OPTIONS"; "get_field_definition"; "ObjectListResult";
    "DatatableStructure"; "LegacyDatatableMixin"; "LegacyDatatableView";
    "LegacyConfigurationDatatableMixin"; "LegacyConfigurationDatatableView" ].

(** The exception classes the interpreter binds as builtins. *)
Definition builtin_names : list string :=
  [ "AttributeError"; "NameError"; "ValueError"; "IndexError"; "TypeError" ].

(** Evaluation of a global name: module namespace first, builtins next,
    [NameError] when neither binds it. *)
Definition lookup_global (globals : list string) (name : string)
  : result string :=
  if bool_decide (name ∈ globals ++ builtin_names) then Ok name
  else Raise (NameError name).

(** Whether the handler [except (c1, ..., cn):] catches [e].  The tuple of
    classes is evaluated when an exception reaches the handler, each name
    in turn, before any class is compared with the exception. *)
Definition handler_catches (globals : list string) (classes : list string)
  (e : exn) : result bool :=
  cs <- mapM (lookup_global globals) classes ;;
  Ok (bool_decide (exn_class e ∈ cs)).

(* ===================================================================== *)
(** ** Vocabulary of the properties *)
(* ===================================================================== *)

(** A tuple ([as_list = false]) or a list ([as_list = true]) of [xs]. *)
Definition sequence (as_list : bool) (xs : list value) : value :=
  if as_list then VList xs else VTuple xs.

(** The source-field sequence a declaration element stands for: itself when
    it is a tuple or list, the one-element sequence holding it otherwise. *)
Definition as_source_fields (f : value) : list value :=
  if is_tuple_or_list f then elements f else [f].

Definition drop_none (xs : list value) : list value :=
  List.filter (fun name => negb (is_none name)) xs.


Fixpoint all_chars (p : ascii -> bool) (s : string) : bool :=
  match s with
  | EmptyString => true
  | String c rest => p c && all_chars p rest
  end.


Fixpoint concat_strings (l : list string) : string :=
  match l with
  | [] => ""
  | s :: rest => s +:+ concat_strings rest
  end.



(** A character as [characters] cuts it: a first byte and continuation
    bytes, no more than the first byte announces. *)
Definition is_character (c : string) : Prop :=
  exists b trail,
    c = String b trail /\ all_chars is_continuation trail = true
    /\ (String.length trail <= trailing_bytes b)%nat.

(** The characters of a name after [re_sub_runs] with an underscore: those
    it keeps, and one underscore for each run. *)
Fixpoint kept_characters (cls : string -> bool) (in_run : bool)
  (cs : list string) : list string :=
  match cs with
  | [] => []
  | c :: rest =>
      if cls c then
        if in_run then kept_characters cls true rest
        else "_" :: kept_characters cls true rest
      else c :: kept_characters cls false rest
  end.

(** A character that has all the bytes its first byte announces. *)
Definition is_complete (c : string) : Prop :=
  exists b trail,
    c = String b trail /\ all_chars is_continuation trail = true
    /\ String.length trail = trailing_bytes b.

(** The elements of [l] at the positions [k] with [lo <= k < hi], in
    order. *)
Fixpoint elements_between {A : Type} (lo hi : Z) (k : Z) (l : list A) : list A :=
  match l with
  | [] => []
  | x :: rest =>
      if (lo <=? k) && (k <? hi) then x :: elements_between lo hi (k + 1) rest
      else elements_between lo hi (k + 1) rest
  end.

Definition elements_at_positions {A : Type} (l : list A) (lo hi : Z) : list A :=
  elements_between lo hi 0 l.

(** Whether a signed field name begins with ["-"]. *)
Definition leading_minus (name : string) : bool :=
  match name with
  | String c _ => Ascii.eqb c "-"
  | EmptyString => false
  end.

Definition direction_of (name : string) : string :=
  if leading_minus name then "desc" else "asc".

(** The keys of a row record over [n] columns. *)
Definition row_keys (n : nat) : list string :=
  "DT_RowId" :: map str_of_index (seq 0 n).

(* ===================================================================== *)
(** ** Sample interpreters, views and rows *)
(* ===================================================================== *)

Definition sample_repr (v : value) : string := "<object>".

Definition sample_builtin_getattr (obj : value) (name : string) : result value :=
  Raise AttributeError.

(** Function [0] returns marked-up text, function [1] returns [None],
    function [2] returns plain text; no other function is defined. *)
Definition sample_call (f : fn_id) (args : list value)
  (kwargs : list (string * value)) : result value :=
  match f with
  | 0%nat => Ok (VStr "<b>custom</b>")
  | 1%nat => Ok VNone
  | 2%nat => Ok (VStr "Springfield")
  | _ => Raise TypeError
  end.

(** Position of the bare column named [name], [-1] when there is none. *)
Fixpoint position_of (name : string) (cols : list value) (k : Z) : Z :=
  match cols with
  | [] => -1
  | VStr s :: rest => if String.eqb s name then k else position_of name rest (k + 1)
  | _ :: rest => position_of name rest (k + 1)
  end.

(** A stand-in for [DatatableOptions.get_column_index] over bare columns. *)
Definition sample_get_column_index (o : DatatableOptions) (name : string) : Z :=
  position_of name (columns o) 0.

Definition options_with (cols : list value) (ord : list string)
  (start len : Z) : DatatableOptions := {|
  columns := cols;
  ordering := ord;
  start_offset := start;
  page_length := len;
  search := "";
  search_fields := [];
  unsortable_columns := [];
  hidden_columns := [];
  structure_template := "datatableview/legacy_structure.html";
  result_counter_id := "id_count"
|}.

Definition no_preload (instance : value) : result value := Ok (VTuple []).

Definition view_with (attrs : gmap string value) (get : gmap string string)
  (o : DatatableOptions) : View := {|
  view_attrs := attrs;
  request_GET := get;
  datatable_options := o;
  preload_record_data := no_preload
|}.

(** A city whose [mayor] attribute is [None]. *)
Definition sample_city : value :=
  VObject ModelInstance "Springfield"
    [ ("pk", Ok (VInt 3)); ("name", Ok (VStr "Springfield"));
      ("mayor", Ok VNone); ("label", Ok (VCallable 2%nat false None)) ].

(** A person living in [sample_city], with no [nickname] attribute. *)
Definition sample_person (pk : Z) (first last : string) : value :=
  VObject ModelInstance (first +:+ " " +:+ last)
    [ ("pk", Ok (VInt pk)); ("first", Ok (VStr first)); ("last", Ok (VStr last));
      ("city", Ok sample_city); ("spouse", Ok VNone);
      ("missing_city", Raise ObjectDoesNotExist) ].

Definition ada : value := sample_person 1 "Ada" "Lovelace".
Definition alan : value := sample_person 2 "Alan" "Turing".

(** The normalised column with the source fields [paths] and neither a
    display name nor an override. *)
Definition column_of (paths : list string) : FieldDefinitionTuple :=
  {| pretty_name := VNone; fields := VTuple (map VStr paths); callback := VNone |}.

(** A view over the bare column ["street_name"] that defines the method
    [get_column_street_name_data]. *)
Definition street_view : View :=
  view_with {[ "get_column_street_name_data" := VCallable 0%nat false None ]} ∅
    (options_with [VStr "street_name"] [] 0 25).

(** The same view with the method named [get_column_None_data] instead. *)
Definition none_view : View :=
  view_with {[ "get_column_None_data" := VCallable 0%nat false None ]} ∅
    (options_with [VStr "street_name"] [] 0 25).


(** Three columns: a bare field, a display name over two fields, and a
    column whose override names the method [city_cell] of the view. *)
Definition three_columns : list value :=
  [ VStr "first";
    VTuple [VStr "Full name"; VList [VStr "first"; VStr "last"]];
    VTuple [VStr "City"; VStr "city__name"; VStr "city_cell"] ].

Definition city_view : View :=
  view_with {[ "city_cell" := VCallable 0%nat false None ]} {[ "sEcho" := "7" ]}
    (options_with three_columns [] 0 25).

(** Two rows out of 100 records, 40 of which pass the filter. *)
Definition two_people : ObjectListResult :=
  {| items := [ada; alan];
     _dtv_total_initial_record_count := VInt 100;
     _dtv_unpaged_total := VInt 40 |}.

Definition two_rows : list (list (string * value)) :=
  [ [ ("DT_RowId", VInt 1); ("0", VStr "Ada"); ("1", VStr "Ada Lovelace");
      ("2", VStr "<b>custom</b>") ];
    [ ("DT_RowId", VInt 2); ("0", VStr "Alan"); ("1", VStr "Alan Turing");
      ("2", VStr "<b>custom</b>") ] ].

(** Columns [id], [city], [name]; the ordering names one column
    descending, one name that is no column, and one column ascending. *)
Definition ordered_options : DatatableOptions :=
  options_with [VStr "id"; VStr "city"; VStr "name"] ["-name"; "bogus"; "+id"] 0 25.

Definition numbered (first count : nat) : list value :=
  map (fun n => VInt (Z.of_nat n)) (seq first count).

(** Page length 25 at start offset 50. *)
Definition page_view : View := view_with ∅ ∅ (options_with [] [] 50 25).

(** Page length -3 at start offset 0. *)
Definition negative_page_view : View := view_with ∅ ∅ (options_with [] [] 0 (-3)).


(** A table in which, outside ASCII, the letters [é] and [ï] and the digit
    [²] are letters or digits, and nothing else is. *)
Definition sample_unicode_alnum (c : string) : bool :=
  bool_decide (c ∈ ["é"; "ï"; "²"]).


(** A declaration whose source fields hold a [None]. *)
Definition sparse_declaration : value :=
  VTuple [VStr "Pretty"; VList [VStr "a"; VNone; VStr "b"]].

(** The third of [three_columns], normalised. *)
Definition city_column : FieldDefinitionTuple :=
  {| pretty_name := VStr "City"; fields := VTuple [VStr "city__name"];
     callback := VStr "city_cell" |}.

(** A function table that differs from [sample_call] on calls with
    arguments only. *)
Definition strict_call (f : fn_id) (args : list value)
  (kwargs : list (string * value)) : result value :=
  match args, kwargs with
  | [], [] => sample_call f args kwargs
  | _, _ => Raise TypeError
  end.

(** Options whose ordering holds an empty name, over a column named by the
    empty text. *)
Definition unnamed_options : DatatableOptions :=
  options_with [VStr "id"; VStr ""] ["-id"; ""] 0 25.

Definition sample_flatatt (attributes : list (string * string)) : string :=
  join " " (map (fun kv => fst kv +:+ "=" +:+ snd kv) attributes).

Definition sample_model : value := VObject PlainObject "Person" [].

Definition sample_model_field_names (model : value) : list string :=
  ["first"; "last"].

Definition sample_field_verbose_name (model : value) (name : string) : value :=
  VStr ("the " +:+ name).

(** A structure object over [three_columns], ordered by [first]
    descending. *)
Definition people_structure : DatatableStructure :=
  {| url := "/people/";
     options := options_with three_columns ["-first"] 0 25;
     model := sample_model;
     structure_ordering :=
       {[ "first" := {| order := 0; column_index := 0; direction := "desc" |} ]} |}.

(** The same with a fourth column of four elements. *)
Definition broken_structure : DatatableStructure :=
  {| url := "/people/";
     options :=
       options_with (three_columns ++ [VTuple [VStr "a"; VStr "b"; VStr "c"; VStr "d"]])
         [] 0 25;
     model := sample_model;
     structure_ordering := ∅ |}.

(** A world that counts the calls of the hook, and a hook that returns
    [options]. *)
Definition counted_hook (options : value) (calls : nat) : result value * nat :=
  (Ok options, S calls).

Definition sample_queryset_model (calls : nat) : result value * nat :=
  (Ok sample_model, calls).

Definition sample_new_DatatableOptions (model : value) (GET : gmap string string)
  (raw : option value) (calls : nat) : result DatatableOptions * nat :=
  (Ok DEFAULT_OPTIONS, calls).

Definition sample_get_queryset (calls : nat) : result value * nat :=
  (Ok (VList [ada; alan]), calls).

Definition sample_update_from (d : list (string * value)) (v : value)
  : result (list (string * value)) :=
  Raise TypeError.

(** Raw options with a column given by a text, a tuple with a list of
    source fields, and a list with a list of source fields. *)
Definition raw_columns : list value :=
  [ VStr "name";
    VTuple [VStr "Full name"; VList [VStr "first"; VStr "last"]];
    VList [VStr "City"; VList [VStr "city__name"]; VStr "city_cell"] ].

Definition raw_options : list (string * value) :=
  [ ("columns", VList raw_columns); ("model", VStr "Person") ].

Definition hashed_columns : list value :=
  [ VStr "name";
    VTuple [VStr "Full name"; VTuple [VStr "first"; VStr "last"]];
    VTuple [VStr "City"; VTuple [VStr "city__name"]; VStr "city_cell"] ].

Definition fresh_configuration : ConfigurationState :=
  {| configured_options := None |}.

Definition fresh_mixin : MixinState :=
  {| self_model := VNone; self_GET := ∅; _datatable_options := None |}.


(** A function table whose functions return the row, the positional
    arguments after it and what four keyword arguments hold. *)
Definition echo_call (f : fn_id) (args : list value)
  (kwargs : list (string * value)) : result value :=
  Ok (VList (args ++ map (fun k => default VNone (assoc k kwargs))
                       ["default_value"; "extra"; "field_data"; "view"])).

(** A function table whose functions return the empty tuple. *)
Definition empty_call (f : fn_id) (args : list value)
  (kwargs : list (string * value)) : result value :=
  Ok (VTuple []).

(** The view [city_view] with a preload hook that returns [preloaded]. *)
Definition preloading_view (preloaded : value) : View :=
  {| view_attrs := view_attrs city_view;
     request_GET := request_GET city_view;
     datatable_options := datatable_options city_view;
     preload_record_data := fun instance => Ok preloaded |}.

Definition city_declaration : value :=
  VTuple [VStr "City"; VStr "city__name"; VStr "city_cell"].

(** Keyword arguments of a preload hook, one of them under the name
    [default_value]. *)
Definition hook_kwargs : value :=
  VDict [("default_value", VStr "hook"); ("extra", VInt 7)].

(** A view whose only column has a function as override. *)
Definition override_view : View :=
  view_with ∅ ∅
    (options_with [VTuple [VStr "Name"; VStr "first"; VCallable 0%nat false None]]
       [] 0 25).

(** A view whose second column reads the attribute that raises
    [ObjectDoesNotExist]. *)
Definition failing_view : View :=
  view_with ∅ ∅ (options_with [VStr "first"; VStr "missing_city"] [] 0 25).

(** A configuration view with a request, and what a caller passes to
    [get_datatable_kwargs]. *)
Definition people_view : ConfigurationView :=
  {| view_model := sample_model;
     view_request := Some (VStr "/people/", VDict [("q", VStr "ada")]);
     view_state := fresh_configuration |}.

Definition caller_kwargs : list (string * value) :=
  [ ("model", VStr "Caller"); ("extra", VInt 1); ("url", VStr "/caller/") ].

Definition hashed_options : list (string * value) :=
  [ ("columns", VList hashed_columns); ("model", VStr "Person") ].


(* ===================================================================== *)
(** ** The operations of the view *)
(* ===================================================================== *)

Section Legacy.

(** What the interpreter and the absent modules provide:
    - [py_repr]: the text form of containers, callables and the view, which
      differs between interpreter versions;
    - [builtin_getattr]: attribute lookup on values of built-in types;
    - [call_function]: the function table, [call_function f args kwargs]
      being the outcome of calling the callable [f];
    - [get_column_index]: [DatatableOptions.get_column_index] of
      [datatableview.utils], which answers [-1] for a name that resolves to
      no column;
    - [unicode_alnum]: whether the regular-expression engine takes a
      character outside ASCII, given by its encoding, for a letter or a
      digit: [str.isalnum] where the pattern of a text is Unicode-aware (the
      interpreter of version 3), never where it is not (version 2, the
      pattern having no [UNICODE] flag). *)
Variable py_repr : value -> string.
Variable builtin_getattr : value -> string -> result value.
Variable call_function : fn_id -> list value -> list (string * value) -> result value.
Variable get_column_index : DatatableOptions -> string -> Z.
Variable unicode_alnum : string -> bool.

(** [six.text_type(v)]. *)
Definition text_type (v : value) : string :=
  match v with
  | VNone => "None"
  | VBool true => "True"
  | VBool false => "False"
  | VInt n => pretty n
  | VStr s => s
  | VObject _ text _ => text
  | VTuple _ | VList _ | VDict _ | VCallable _ _ _ | VView => py_repr v
  end.

(** [django.utils.encoding.force_text(v, errors="ignore")]: a text value is
    returned as it is, any other value goes through [six.text_type], so that
    [None] becomes the text ["None"]. *)
Definition force_text (v : value) : string := text_type v.

(** [getattr(obj, name)]. *)
Definition getattr (obj : value) (name : string) : result value :=
  match obj with
  | VObject _ _ attrs =>
      match assoc name attrs with
      | Some outcome => outcome
      | None => Raise AttributeError
      end
  | _ => builtin_getattr obj name
  end.

(** Calling [f] with positional arguments [args] and keyword arguments
    [kwargs]; calling what is not callable is a [TypeError]. *)
Definition call_value (f : value) (args : list value)
  (kwargs : list (string * value)) : result value :=
  match f with
  | VCallable id _ _ => call_function id args kwargs
  | _ => Raise TypeError
  end.

(** [values[0]] on a tuple or list. *)
Definition item0 (v : value) : result value :=
  match elements v with
  | x :: _ => Ok x
  | [] => Raise IndexError
  end.

(** *** Pagination slicer *)

(** The bound a slice index denotes on a sequence of length [n]. *)
Definition slice_bound (n i : Z) : Z :=
  if i <? 0 then Z.max (i + n) 0 else Z.min i n.

(** [l[i:j]]. *)
Definition py_slice {A : Type} (l : list A) (i j : Z) : list A :=
  let n := Z.of_nat (length l) in
  let lo := slice_bound n i in
  let hi := slice_bound n j in
  take (Z.to_nat (hi - lo)) (drop (Z.to_nat lo) l).

(** [paginate_object_list(self, object_list)]. *)
Definition paginate_object_list (self : View) (object_list : list value)
  : list value :=
  let options := datatable_options self in
  if negb (page_length options =? -1) then
    let i_begin := start_offset options in
    let i_end := start_offset options + page_length options in
    py_slice object_list i_begin i_end
  else object_list.

(** *** Default attribute-chain resolver *)

(** [chain_lookup(obj, bit)], the function nested in
    [_get_column_data_default], with the namespace its handler is evaluated
    in as a parameter. *)
Definition chain_lookup_in (globals : list string) (obj : value) (bit : string)
  : result value :=
  match getattr obj bit with
  | Raise e =>
      caught <- handler_catches globals
                  ["AttributeError"; "ObjectDoesNotExist"] e ;;
      if caught then Ok VNone else Raise e
  | Ok value =>
      match value with
      | VCallable f is_manager alters_data =>
          if is_manager then Ok value
          else
            match alters_data with
            | Some (VBool true) => Ok value
            | _ => call_function f [] []
            end
      | _ => Ok value
      end
  end.

Definition chain_lookup : value -> string -> result value :=
  chain_lookup_in module_globals.

(** [reduce(step, [obj] + bits)]. *)
Fixpoint reduce (step : value -> string -> result value) (obj : value)
  (bits : list string) : result value :=
  match bits with
  | [] => Ok obj
  | bit :: rest => v <- step obj bit ;; reduce step v rest
  end.

(** The body of the loop over [column.fields] up to the [None] test: the
    value one source field resolves to.  Source fields are texts; a field
    name of another type has no [split] method. *)
Definition field_value (step : value -> string -> result value)
  (instance : value) (field_name : value) : result value :=
  bits <- match field_name with
          | VStr s => Ok (split_dunder s)
          | _ => Raise AttributeError
          end ;;
  value <- reduce step instance bits ;;
  match value with
  | VObject ModelInstance _ _ => Ok (VStr (text_type value))
  | _ => Ok value
  end.

(** The value returned twice once the loop is over. *)
Definition combine_values (values : list value) : value :=
  match values with
  | [v] => v
  | _ => VStr (join " " (map text_type values))
  end.

Definition not_none (v : value) : bool := negb (is_none v).

Definition get_column_data_default_in (globals : list string)
  (instance : value) (column : FieldDefinitionTuple) : result (value * value) :=
  resolved <- mapM (field_value (chain_lookup_in globals) instance)
                (elements (fields column)) ;;
  let values := List.filter not_none resolved in
  let value := combine_values values in
  Ok (value, value).

(** [_get_column_data_default(self, instance, column)]. *)
Definition _get_column_data_default (instance : value)
  (column : FieldDefinitionTuple) : result (value * value) :=
  get_column_data_default_in module_globals instance column.

(** *** Resolver dispatcher *)

(** Whether the pattern takes the character [c] for a letter or a digit: by
    ASCII for a character of ASCII, by [unicode_alnum] for a character of
    two bytes or more that has all its bytes. *)
Definition is_alnum_character (c : string) : bool :=
  match c with
  | String b trail =>
      if is_ascii b then is_alnum b
      else (0 <? trailing_bytes b)%nat
           && Nat.eqb (String.length trail) (trailing_bytes b)
           && unicode_alnum c
  | EmptyString => false
  end.

(** The class [[\W_]] of the mangling pattern: every character that is no
    letter and no digit, the underscore among them. *)
Definition mangle_class (c : string) : bool := negb (is_alnum_character c).

(** [re.sub(r'[\W_]+', '_', name)]. *)
Definition mangle (name : string) : string :=
  re_sub_runs mangle_class "_" false (characters name).

Definition name_method (mangled_name : string) : string :=
  "get_column_" +:+ mangled_name +:+ "_data".

Definition index_method (i : nat) : string :=
  "get_column_" +:+ str_of_index i +:+ "_data".

(** [getattr(self, name, None)]. *)
Definition view_getattr_default (self : View) (name : string) : value :=
  default VNone (view_attrs self !! name).

(** The name the method lookup starts from: the display name put into text
    when that text is not empty, the first source field otherwise. *)
Definition lookup_name (column : FieldDefinitionTuple) : result value :=
  let name := force_text (pretty_name column) in
  if negb (String.eqb name "") then Ok (VStr name)
  else item0 (fields column).

(** [_get_resolver_method(self, i, column)]. *)
Definition _get_resolver_method (self : View) (i : nat)
  (column : FieldDefinitionTuple) : result (bool * resolver) :=
  let callback := callback column in
  if truthy callback then
    if callable callback then Ok (true, ResolverValue callback)
    else
      match callback with
      | VStr attr =>
          match view_attrs self !! attr with
          | Some f => Ok (true, ResolverValue f)
          | None => Raise AttributeError
          end
      | _ => Raise TypeError
      end
  else
    name <- lookup_name column ;;
    mangled_name <- match name with
                    | VStr s => Ok (mangle s)
                    | _ => Raise TypeError
                    end ;;
    let f := view_getattr_default self (name_method mangled_name) in
    if truthy f then Ok (true, ResolverValue f)
    else
      let f := view_getattr_default self (index_method i) in
      if truthy f then Ok (true, ResolverValue f)
      else Ok (false, DefaultResolver).

(** *** Row assembler *)

(** [_get_preloaded_data(self, instance)]: the positional and the keyword
    arguments made of what the preload hook returns. *)
Definition _get_preloaded_data (self : View) (instance : value)
  : result (list value * list (string * value)) :=
  preloaded_data <- preload_record_data self instance ;;
  match preloaded_data with
  | VDict kvs => Ok ([], kvs)
  | VTuple xs | VList xs => Ok (xs, [])
  | _ => Ok ([preloaded_data], [])
  end.

(** [get_column_data(self, i, name, instance)].  Text is of one kind here,
    so the byte-string decoding of the [six.PY2] branches has nothing to
    do. *)
Definition get_column_data (self : View) (i : nat) (name : value)
  (instance : value) : result value :=
  column <- get_field_definition name ;;
  found <- _get_resolver_method self i column ;;
  values <-
    match found with
    | (true, f) =>
        preloaded <- _get_preloaded_data self instance ;;
        default_value <-
          match _get_column_data_default instance column with
          | Ok (_, search_value) => Ok search_value
          | Raise AttributeError => Ok VNone
          | Raise e => Raise e
          end ;;
        let kwargs := dict_set "default_value" default_value (snd preloaded) in
        let kwargs := dict_set "field_data" name kwargs in
        let kwargs := dict_set "view" VView kwargs in
        match f with
        | ResolverValue f => call_value f (instance :: fst preloaded) kwargs
        | DefaultResolver =>
            r <- _get_column_data_default instance column ;;
            Ok (VTuple [fst r; snd r])
        end
    | (false, _) =>
        r <- _get_column_data_default instance column ;;
        Ok (VTuple [fst r; snd r])
    end ;;
  if negb (is_tuple_or_list values) then
    Ok (VTuple [values; VStr (strip_tags (text_type values))])
  else Ok values.

(** The loop of [get_record_data] from column [i] on. *)
Fixpoint record_columns (self : View) (obj : value) (i : nat)
  (names : list value) (data : list (string * value))
  : result (list (string * value)) :=
  match names with
  | [] => Ok data
  | name :: rest =>
      values <- get_column_data self i name obj ;;
      column_data <- item0 values ;;
      record_columns self obj (S i) rest
        (dict_set (str_of_index i) (VStr (text_type column_data)) data)
  end.

(** [get_record_data(self, obj)]. *)
Definition get_record_data (self : View) (obj : value)
  : result (list (string * value)) :=
  let options := datatable_options self in
  pk <- getattr obj "pk" ;;
  record_columns self obj 0%nat (columns options) [("DT_RowId", pk)].

(** *** Response assembler *)

(** [self.request.GET.get('sEcho', None)]. *)
Definition request_get (self : View) (key : string) : value :=
  match request_GET self !! key with
  | Some s => VStr s
  | None => VNone
  end.

(** [get_json_response_object(self, object_list, total, filtered_total)]. *)
Definition get_json_response_object (self : View) (object_list : list value)
  (total filtered_total : value) : result value :=
  let object_list_page := paginate_object_list self object_list in
  let sEcho := request_get self "sEcho" in
  aaData <- mapM (get_record_data self) object_list_page ;;
  Ok (VDict [ ("sEcho", sEcho);
              ("iTotalRecords", total);
              ("iTotalDisplayRecords", filtered_total);
              ("aaData", VList (map VDict aaData)) ]).

(** The payload [get_ajax] serialises, [object_list] being what
    [get_object_list()] returned. *)
Definition get_ajax_response_data (self : View) (object_list : ObjectListResult)
  : result value :=
  let total := _dtv_total_initial_record_count object_list in
  let filtered_total := _dtv_unpaged_total object_list in
  get_json_response_object self (items object_list) total filtered_total.

(** *** Structure descriptor: the ordering map *)

(** One turn of the loop in [DatatableStructure.__init__]. *)
Definition ordering_step (options : DatatableOptions)
  (ordering : gmap string ColumnOrderingTuple) (i : nat) (name : string)
  : result (gmap string ColumnOrderingTuple) :=
  let plain_name := lstrip ["-"; "+"]%char name in
  let index := get_column_index options plain_name in
  if index =? -1 then Ok ordering
  else
    c <- first_char name ;;
    let sort_direction := if Ascii.eqb c "-" then "desc" else "asc" in
    Ok (<[plain_name := {| order := i; column_index := index;
                           direction := sort_direction |}]> ordering).

(** The loop over [enumerate(options['ordering'])] from position [i] on. *)
Fixpoint ordering_loop (options : DatatableOptions) (i : nat)
  (names : list string) (ordering : gmap string ColumnOrderingTuple)
  : result (gmap string ColumnOrderingTuple) :=
  match names with
  | [] => Ok ordering
  | name :: rest =>
      ordering' <- ordering_step options ordering i name ;;
      ordering_loop options (S i) rest ordering'
  end.

(** [DatatableStructure.__init__(self, ajax_url, options, model)]. *)
Definition DatatableStructure_init (ajax_url : string)
  (options : DatatableOptions) (model : value) : result DatatableStructure :=
  ordering <- match ordering options with
              | [] => Ok ∅
              | names => ordering_loop options 0%nat names ∅
              end ;;
  Ok {| url := ajax_url; options := options; model := model;
        structure_ordering := ordering |}.

(** *** Structure descriptor: column attributes and column info *)

(** What the absent modules provide for the structure descriptor:
    - [flatatt]: [django.forms.util.flatatt], the attributes as text;
    - [model_field_names]: the names of the fields of a model, as
      [model._meta.get_fields()] or [model._meta.get_all_field_names()]
      report them;
    - [field_verbose_name]: [verbose_name] of the field
      [model._meta.get_field_by_name(name)[0]]. *)
Variable flatatt : list (string * string) -> string.
Variable model_field_names : value -> list string.
Variable field_verbose_name : value -> string -> value.

(** [_javascript_boolean[b]]. *)
Definition _javascript_boolean (b : bool) : string :=
  if b then "true" else "false".

(** Whether [hash(v)] succeeds: lists and dictionaries have no hash, a tuple
    has one when its elements have. *)
Fixpoint hashable (v : value) : bool :=
  match v with
  | VList _ | VDict _ => false
  | VTuple xs => forallb hashable xs
  | _ => true
  end.

(** [name in names] for a list of texts: only a text equals one of them. *)
Definition name_in (name : value) (names : list string) : bool :=
  match name with
  | VStr s => bool_decide (s ∈ names)
  | _ => false
  end.

(** [name in self.ordering] and [self.ordering[name]]: the key is hashed
    first, and only a text is a key of the map. *)
Definition ordering_lookup (self : DatatableStructure) (name : value)
  : result (option ColumnOrderingTuple) :=
  if hashable name then
    match name with
    | VStr s => Ok (structure_ordering self !! s)
    | _ => Ok None
    end
  else Raise TypeError.

(** [','.join(map(six.text_type, t))] for an ordering tuple [t]. *)
Definition sorting_text (t : ColumnOrderingTuple) : string :=
  join "," (map text_type
              [VInt (Z.of_nat (order t)); VInt (column_index t); VStr (direction t)]).

(** [get_column_attributes(self, name)]. *)
Definition get_column_attributes (self : DatatableStructure) (name : value)
  : result (list (string * string)) :=
  let attributes :=
    [ ("data-sortable",
       _javascript_boolean (negb (name_in name (unsortable_columns (options self)))));
      ("data-visible",
       _javascript_boolean (negb (name_in name (hidden_columns (options self))))) ] in
  found <- ordering_lookup self name ;;
  match found with
  | Some t => Ok (dict_set "data-sorting" (sorting_text t) attributes)
  | None => Ok attributes
  end.

(** The body of the loop of [get_column_info] for one column. *)
Definition column_info_of (self : DatatableStructure) (model_fields : list string)
  (column : value) : result ColumnInfoTuple :=
  column <- get_field_definition column ;;
  let pretty_name := pretty_name column in
  names <-
    match elements (fields column) with
    | VStr field0 :: _ =>
        if bool_decide (field0 ∈ model_fields) then
          Ok (VStr field0,
              if negb (truthy pretty_name)
              then field_verbose_name (model self) field0
              else pretty_name)
        else Ok (pretty_name, pretty_name)
    | _ => Ok (pretty_name, pretty_name)
    end ;;
  attributes <- get_column_attributes self (fst names) ;;
  Ok {| info_pretty_name := snd names; attrs := flatatt attributes |}.

(** [get_column_info(self)]; [__iter__] yields the elements of its result
    in order. *)
Definition get_column_info (self : DatatableStructure)
  : result (list ColumnInfoTuple) :=
  let model_fields :=
    if truthy (model self) then model_field_names (model self) else [] in
  mapM (column_info_of self model_fields) (columns (options self)).


(** *** Options of the view, computed once *)

(** The calls that leave the module, each a function of the state of the
    world [World] it may read and change:
    - [get_queryset_model]: [self.get_queryset().model];
    - [get_datatable_options]: the hook of that name;
    - [new_DatatableOptions]: the constructor [DatatableOptions(model, GET)],
      given the raw options as keyword arguments when there are any. *)
Variable World : Type.
Variable get_queryset_model : World -> result value * World.
Variable get_datatable_options : World -> result value * World.
Variable new_DatatableOptions :
  value -> gmap string string -> option value -> World ->
  result DatatableOptions * World.

(** [LegacyDatatableMixin._get_datatable_options(self)]. *)
Definition LegacyDatatableMixin__get_datatable_options (self : MixinState)
  (w : World) : result DatatableOptions * MixinState * World :=
  match _datatable_options self with
  | Some options => (Ok options, self, w)
  | None =>
      let '(found, self, w) :=
        if is_none (self_model self) then
          match get_queryset_model w with
          | (Ok m, w) =>
              (Ok tt,
               {| self_model := m; self_GET := self_GET self;
                  _datatable_options := _datatable_options self |}, w)
          | (Raise e, w) => (Raise e, self, w)
          end
        else (Ok tt, self, w) in
      match found with
      | Raise e => (Raise e, self, w)
      | Ok _ =>
          match get_datatable_options w with
          | (Raise e, w) => (Raise e, self, w)
          | (Ok options, w) =>
              match new_DatatableOptions (self_model self) (self_GET self)
                      (if truthy options then Some options else None) w with
              | (Raise e, w) => (Raise e, self, w)
              | (Ok options, w) =>
                  (Ok options,
                   {| self_model := self_model self; self_GET := self_GET self;
                      _datatable_options := Some options |}, w)
              end
          end
      end
  end.

(** [len(v)]; instances, callables and the view define no length, and they
    cannot be iterated over. *)
Definition py_len (v : value) : result nat :=
  match v with
  | VStr s => Ok (length (characters s))
  | VTuple xs | VList xs => Ok (length xs)
  | VDict kvs => Ok (length kvs)
  | _ => Raise TypeError
  end.

(** [v[1]] for a [v] of length 2 or more: the second element of a tuple or
    list, the second character of a text; the keys of a dictionary are
    texts, none of which is [1]. *)
Definition item1 (v : value) : result value :=
  match v with
  | VStr s =>
      match characters s with
      | _ :: c :: _ => Ok (VStr c)
      | _ => Raise IndexError
      end
  | VTuple (_ :: x :: _) | VList (_ :: x :: _) => Ok x
  | VDict _ => Raise (OtherError "KeyError")
  | VTuple _ | VList _ => Raise IndexError
  | _ => Raise TypeError
  end.

(** The body of the loop of
    [LegacyConfigurationDatatableMixin._get_datatable_options] for one
    column: the tuple to store in its place, if any. *)
Definition convert_column (column : value) : result (option value) :=
  n <- py_len column ;;
  if (2 <=? n)%nat then
    second <- item1 column ;;
    match second with
    | VList names =>
        match elements column with
        | first :: _ :: rest => Ok (Some (VTuple (first :: VTuple names :: rest)))
        | _ => Ok None
        end
    | _ => Ok None
    end
  else Ok None.

(** The loop over [enumerate(columns)]: the columns as the loop leaves them
    and the exception that ended it, if any.  [mutable] says that [columns]
    is a list; an item of a tuple cannot be assigned. *)
Fixpoint convert_columns (mutable : bool) (columns : list value)
  : list value * option exn :=
  match columns with
  | [] => ([], None)
  | column :: rest =>
      match convert_column column with
      | Raise e => (column :: rest, Some e)
      | Ok None =>
          let '(rest', outcome) := convert_columns mutable rest in
          (column :: rest', outcome)
      | Ok (Some converted) =>
          if mutable then
            let '(rest', outcome) := convert_columns mutable rest in
            (converted :: rest', outcome)
          else (column :: rest, Some TypeError)
      end
  end.

Definition outcome_of (options : value) (outcome : option exn) : result value :=
  match outcome with
  | None => Ok options
  | Some e => Raise e
  end.

(** [LegacyConfigurationDatatableMixin._get_datatable_options(self)].  The
    options are a dictionary or [None]; any other value has no [get]
    method.  The attribute is set before the columns are looked at, and the
    list of columns is changed in place. *)
Definition LegacyConfigurationDatatableMixin__get_datatable_options
  (self : ConfigurationState) (w : World)
  : result value * ConfigurationState * World :=
  match configured_options self with
  | Some options => (Ok options, self, w)
  | None =>
      match get_datatable_options w with
      | (Raise e, w) => (Raise e, self, w)
      | (Ok options, w) =>
          match options with
          | VDict kvs =>
              match assoc "columns" kvs with
              | None => (Ok options, {| configured_options := Some options |}, w)
              | Some (VList columns) =>
                  let '(columns', outcome) := convert_columns true columns in
                  let options' := VDict (dict_set "columns" (VList columns') kvs) in
                  (outcome_of options' outcome,
                   {| configured_options := Some options' |}, w)
              | Some (VTuple columns) =>
                  let '(_, outcome) := convert_columns false columns in
                  (outcome_of options outcome,
                   {| configured_options := Some options |}, w)
              | Some (VStr _) | Some (VDict _) =>
                  (Ok options, {| configured_options := Some options |}, w)
              | Some _ =>
                  (Raise TypeError, {| configured_options := Some options |}, w)
              end
          | _ => (Raise AttributeError, {| configured_options := Some options |}, w)
          end
      end
  end.


(** *** Keyword arguments of the datatable *)

(** - [get_queryset]: [self.get_queryset()];
    - [update_from]: [d.update(v)] for a [v] that is no dictionary, which
      the interpreter takes as an iterable of pairs or refuses. *)
Variable get_queryset : World -> result value * World.
Variable update_from :
  list (string * value) -> value -> result (list (string * value)).

(** [d.update(u)] for a dictionary [u]. *)
Definition dict_update (d u : list (string * value)) : list (string * value) :=
  fold_left (fun d kv => dict_set (fst kv) (snd kv) d) u d.

(** [get_datatable_kwargs(self, **kwargs)]. *)
Definition get_datatable_kwargs (self : ConfigurationView)
  (kwargs : list (string * value)) (w : World)
  : result (list (string * value)) * ConfigurationView * World :=
  match get_queryset w with
  | (Raise e, w) => (Raise e, self, w)
  | (Ok object_list, w) =>
      let kwargs :=
        dict_update kwargs
          [ ("object_list", object_list); ("view", VView);
            ("model", view_model self); ("callback_target", VView) ] in
      let kwargs :=
        match view_request self with
        | Some (path, GET) => dict_set "query_config" GET (dict_set "url" path kwargs)
        | None => dict_set "query_config" (VDict []) kwargs
        end in
      match LegacyConfigurationDatatableMixin__get_datatable_options
              (view_state self) w with
      | (outcome, state, w) =>
          let self := {| view_model := view_model self;
                         view_request := view_request self;
                         view_state := state |} in
          match outcome with
          | Raise e => (Raise e, self, w)
          | Ok (VDict options) => (Ok (dict_update kwargs options), self, w)
          | Ok options => (update_from kwargs options, self, w)
          end
      end
  end.


(** *** Vocabulary of the properties of the view *)



(** A letter, a digit or the underscore. *)
Definition is_word_character (c : string) : Prop :=
  is_alnum_character c = true \/ c = "_".

(** The plain name of a signed field name. *)
Definition plain_name_of (name : string) : string :=
  lstrip ["-"; "+"]%char name.

(** What the entry at position [i] of the ordering option records. *)
Definition ordering_entry (options : DatatableOptions) (i : nat) (name : string)
  : ColumnOrderingTuple :=
  {| order := i;
     column_index := get_column_index options (plain_name_of name);
     direction := direction_of name |}.

Definition resolvable (options : DatatableOptions) (name : string) : Prop :=
  get_column_index options (plain_name_of name) <> -1.

(** The entries for which [name[0]] is evaluated have a first character. *)
Definition names_indexable (options : DatatableOptions) (names : list string)
  : Prop :=
  forall name, name ∈ names -> name = "" -> get_column_index options "" = -1.

(** The display value of column [i] of [obj]: the first component of what
    [get_column_data] returns. *)
Definition display_value (self : View) (obj : value) (i : nat) (name : value)
  : result value :=
  values <- get_column_data self i name obj ;; item0 values.

(** [displays] are the display values of the columns [names], which are the
    columns from position [first] on. *)
Definition displays_of (self : View) (obj : value) (first : nat)
  (names displays : list value) : Prop :=
  length displays = length names
  /\ forall (j : nat) (name : value),
       names !! j = Some name ->
       exists d, displays !! j = Some d
                 /\ display_value self obj (first + j) name = Ok d.

(** The cells of a row: column [first + j] holds the text of the [j]-th
    display value. *)
Definition cells (first : nat) (displays : list value) : list (string * value) :=
  imap (fun j d => (str_of_index (first + j), VStr (text_type d))) displays.

(** A row record: the row identifier, then one text cell per column, keyed
    by the column indices in order. *)
Definition row_record_of (self : View) (obj : value) (row : list (string * value))
  : Prop :=
  exists pk displays,
    getattr obj "pk" = Ok pk
    /\ displays_of self obj 0 (columns (datatable_options self)) displays
    /\ row = ("DT_RowId", pk) :: cells 0 displays
    /\ row.*1 = row_keys (length (columns (datatable_options self))).

Definition head_digit (s : string) : Prop :=
  match s with
  | String c _ => is_digit c = true
  | EmptyString => False
  end.

Ltac destruct_short xs :=
  destruct xs as [|? [|? [|? [|? ?]]]].

(** The view [self] asked for the page of [len] rows from [start]. *)
Definition with_page (self : View) (start len : Z) : View :=
  {| view_attrs := view_attrs self;
     request_GET := request_GET self;
     datatable_options :=
       {| columns := columns (datatable_options self);
          ordering := ordering (datatable_options self);
          start_offset := start;
          page_length := len;
          search := search (datatable_options self);
          search_fields := search_fields (datatable_options self);
          unsortable_columns := unsortable_columns (datatable_options self);
          hidden_columns := hidden_columns (datatable_options self);
          structure_template := structure_template (datatable_options self);
          result_counter_id := result_counter_id (datatable_options self) |};
     preload_record_data := preload_record_data self |}.

(** The normalised column as the tuple it is. *)
Definition as_tuple (column : FieldDefinitionTuple) : value :=
  VTuple [pretty_name column; fields column; callback column].


Definition not_gt (c : ascii) : bool := negb (Ascii.eqb c ">").

(** [s] has a substring that the pattern [<[^>]+>] matches: a ["<"], one
    character or more none of which is [">"], and a [">"]. *)
Definition contains_tag (s : string) : Prop :=
  exists before body after,
    s = before +:+ String "<" (body +:+ String ">" after)
    /\ body <> "" /\ all_chars not_gt body = true.

(** The characters the scanner of [strip_tags] holds back: those of a tag
    it has opened and not closed, and the ["<"] that opened it. *)
Definition state_size (tag : option (list ascii)) : nat :=
  match tag with
  | None => 0
  | Some buf => S (length buf)
  end.

(** The value the [try] block of [get_column_data] stores under
    [default_value]. *)
Definition default_value_of (instance : value) (column : FieldDefinitionTuple)
  : result value :=
  match _get_column_data_default instance column with
  | Ok (_, search_value) => Ok search_value
  | Raise AttributeError => Ok VNone
  | Raise e => Raise e
  end.

(** What [get_column_data] makes of the resolver's return value. *)
Definition as_value_pair (values : value) : value :=
  if is_tuple_or_list values then values
  else VTuple [values; VStr (strip_tags (text_type values))].


(** The keyword arguments a custom resolver is called with. *)
Definition resolver_kwargs (name default_value : value)
  (preloaded : list (string * value)) : list (string * value) :=
  dict_set "view" VView
    (dict_set "field_data" name (dict_set "default_value" default_value preloaded)).


Fixpoint ends_with_underscore (s : string) : bool :=
  match s with
  | EmptyString => false
  | String c EmptyString => Ascii.eqb c "_"
  | String _ rest => ends_with_underscore rest
  end.


(** A column declaration that is a text, a tuple or a list. *)
Definition is_declaration (column : value) : bool :=
  match column with
  | VStr _ | VTuple _ | VList _ => true
  | _ => false
  end.

Definition is_dict (v : value) : bool :=
  match v with VDict _ => true | _ => false end.


(* ===================================================================== *)
(** ** Properties *)
(* ===================================================================== *)

(** *** Column definition normaliser *)

Lemma drop_none_texts (names : list string) :
  drop_none (map VStr names) = map VStr names.
Proof.
  induction names as [|n names IH]; [reflexivity|].
  unfold drop_none in *. simpl. by rewrite IH.
Qed.

Lemma drop_none_not_none (xs : list value) :
  Forall (fun v => v <> VNone) (drop_none xs).
Proof.
  induction xs as [|x xs IH]; [constructor|].
  unfold drop_none in *. simpl.
  destruct x; simpl; try (constructor; [discriminate|]); exact IH.
Qed.

Lemma get_field_definition_sequence (as_list : bool) (xs : list value) :
  get_field_definition (sequence as_list xs) =
  match xs with
  | [x] =>
      Ok {| pretty_name := VNone; fields := VTuple (drop_none [x]);
            callback := VNone |}
  | [p; f] =>
      Ok {| pretty_name := p; fields := VTuple (drop_none (as_source_fields f));
            callback := VNone |}
  | [p; f; c] =>
      Ok {| pretty_name := p; fields := VTuple (drop_none (as_source_fields f));
            callback := c |}
  | _ => Raise invalid_format
  end.
Proof.
  destruct as_list; destruct_short xs; try reflexivity;
    unfold get_field_definition, as_source_fields; simpl;
    match goal with
    | |- context [is_tuple_or_list ?f] => destruct (is_tuple_or_list f) eqn:E
    end; simpl; try reflexivity;
    match goal with
    | f : value |- _ => destruct f; simpl in E; try discriminate; reflexivity
    end.
Qed.

Lemma get_field_definition_scalar (fd : value) :
  is_tuple_or_list fd = false ->
  get_field_definition fd =
  Ok {| pretty_name := VNone; fields := VTuple (drop_none [fd]); callback := VNone |}.
Proof.
  intros H. unfold get_field_definition. rewrite H. reflexivity.
Qed.

(** C3: a tuple or list of one element is taken as the source fields, with
    no display name and no override; two elements are the display name and
    the source fields; three elements are the display name, the source fields
    and the resolver override; a tuple or list of any other length is refused
    with the configuration error.  A source-field element that is no tuple or
    list is wrapped into a one-element sequence, [None] entries are dropped,
    and the source fields of every result are a tuple, which holds exactly
    the field paths given when these are texts. *)
Theorem get_field_definition_normalizes :
  (forall as_list x,
      get_field_definition (sequence as_list [x]) =
      Ok {| pretty_name := VNone; fields := VTuple (drop_none [x]);
            callback := VNone |})
  /\ (forall as_list p f,
      get_field_definition (sequence as_list [p; f]) =
      Ok {| pretty_name := p; fields := VTuple (drop_none (as_source_fields f));
            callback := VNone |})
  /\ (forall as_list p f c,
      get_field_definition (sequence as_list [p; f; c]) =
      Ok {| pretty_name := p; fields := VTuple (drop_none (as_source_fields f));
            callback := c |})
  /\ (forall as_list xs,
      length xs <> 1%nat -> length xs <> 2%nat -> length xs <> 3%nat ->
      get_field_definition (sequence as_list xs) = Raise invalid_format)
  /\ (forall f, is_tuple_or_list f = false -> as_source_fields f = [f])
  /\ (forall fd col,
      get_field_definition fd = Ok col ->
      exists names, fields col = VTuple names /\ Forall (fun v => v <> VNone) names)
  /\ (forall as_list as_list' p names,
      get_field_definition (sequence as_list [p; sequence as_list' (map VStr names)]) =
      Ok {| pretty_name := p; fields := VTuple (map VStr names); callback := VNone |}).
Proof.
  split_and!.
  - intros. by rewrite get_field_definition_sequence.
  - intros. by rewrite get_field_definition_sequence.
  - intros. by rewrite get_field_definition_sequence.
  - intros as_list xs H1 H2 H3. rewrite get_field_definition_sequence.
    destruct_short xs; simpl in *; congruence.
  - intros f Hf. unfold as_source_fields. by rewrite Hf.
  - intros fd col H.
    assert (exists xs, fields col = VTuple (drop_none xs)) as [xs Hxs].
    { destruct (is_tuple_or_list fd) eqn:E.
      - assert (exists b ys, fd = sequence b ys) as (b & ys & ->).
        { destruct fd; try discriminate; [by exists false; eexists|by exists true; eexists]. }
        rewrite get_field_definition_sequence in H.
        destruct_short ys; try discriminate;
          match type of H with
          | Ok ?c = Ok _ => assert (col = c) as -> by congruence
          end; eexists; reflexivity.
      - rewrite get_field_definition_scalar in H by done.
        match type of H with
        | Ok ?c = Ok _ => assert (col = c) as -> by congruence
        end. eexists; reflexivity. }
    exists (drop_none xs). split; [done|apply drop_none_not_none].
  - intros as_list as_list' p names.
    rewrite get_field_definition_sequence.
    replace (as_source_fields (sequence as_list' (map VStr names)))
      with (map VStr names) by (by destruct as_list').
    by rewrite drop_none_texts.
Qed.

(** C10, as amended: the configuration error is raised exactly for a tuple or
    list of length 0 or of length above 3, and no other error is; every other
    input is accepted, and one that is no tuple or list yields no display
    name, no override and the one-element source-field tuple holding the input
    itself, a text of any length included, except that [None] yields the
    empty source-field tuple. *)
Theorem get_field_definition_raises_iff :
  (forall fd,
      is_ok (get_field_definition fd) = false <->
      is_tuple_or_list fd = true /\
      (length (elements fd) = 0 \/ 3 < length (elements fd))%nat)
  /\ (forall fd e, get_field_definition fd = Raise e -> e = invalid_format)
  /\ (forall fd,
      is_tuple_or_list fd = false ->
      get_field_definition fd =
      Ok {| pretty_name := VNone;
            fields := VTuple (if is_none fd then [] else [fd]);
            callback := VNone |})
  /\ (forall s,
      get_field_definition (VStr s) =
      Ok {| pretty_name := VNone; fields := VTuple [VStr s]; callback := VNone |}).
Proof.
  assert (Hseq : forall fd, is_tuple_or_list fd = true ->
                            exists b ys, fd = sequence b ys /\ elements fd = ys).
  { intros fd E. destruct fd; try discriminate;
      [by exists false; eexists|by exists true; eexists]. }
  split_and!.
  - intros fd. split.
    + intros H. destruct (is_tuple_or_list fd) eqn:E.
      * split; [done|]. destruct (Hseq fd E) as (b & ys & -> & ->).
        rewrite get_field_definition_sequence in H.
        destruct_short ys; simpl in *; try discriminate; lia.
      * rewrite get_field_definition_scalar in H by done. discriminate.
    + intros [E Hlen]. destruct (Hseq fd E) as (b & ys & -> & Hys).
      rewrite Hys in Hlen. rewrite get_field_definition_sequence.
      destruct_short ys; simpl in *; try reflexivity; lia.
  - intros fd e H. destruct (is_tuple_or_list fd) eqn:E.
    + destruct (Hseq fd E) as (b & ys & -> & _).
      rewrite get_field_definition_sequence in H.
      destruct_short ys; congruence.
    + rewrite get_field_definition_scalar in H by done. discriminate.
  - intros fd E. rewrite get_field_definition_scalar by done.
    destruct fd; reflexivity.
  - intros s. reflexivity.
Qed.


(** *** Name mangling *)

Lemma append_cons (c : ascii) (a b : string) :
  String c a +:+ b = String c (a +:+ b).
Proof. reflexivity. Qed.

Lemma append_nil_r (a : string) : a +:+ "" = a.
Proof.
  induction a as [|c a IH]; [reflexivity|]. by rewrite append_cons, IH.
Qed.

Lemma append_length (a b : string) :
  String.length (a +:+ b) = (String.length a + String.length b)%nat.
Proof.
  induction a as [|c a IH]; [reflexivity|]. rewrite append_cons. simpl.
  by rewrite IH.
Qed.

Lemma string_append_assoc (a b c : string) : (a +:+ b) +:+ c = a +:+ (b +:+ c).
Proof.
  induction a as [|x a IH]; [reflexivity|]. by rewrite !append_cons, IH.
Qed.

Lemma take_continuation_spec (n : nat) (s taken rest : string) :
  take_continuation n s = (taken, rest) ->
  s = taken +:+ rest /\ all_chars is_continuation taken = true
  /\ (String.length taken <= n)%nat.
Proof.
  revert s taken rest. induction n as [|n IH]; intros s taken rest H.
  - destruct s; simpl in H; injection H as <- <-;
      (split_and!; [reflexivity|reflexivity|simpl; lia]).
  - destruct s as [|b s]; simpl in H.
    + injection H as <- <-. split_and!; [reflexivity|reflexivity|simpl; lia].
    + destruct (is_continuation b) eqn:Eb.
      * destruct (take_continuation n s) as [t r] eqn:E. injection H as <- <-.
        destruct (IH _ _ _ E) as (-> & Hall & Hlen).
        split_and!; [reflexivity|simpl; by rewrite Eb, Hall|simpl; lia].
      * injection H as <- <-. split_and!; [reflexivity|reflexivity|simpl; lia].
Qed.

Lemma take_continuation_exact (trail rest : string) :
  all_chars is_continuation trail = true ->
  take_continuation (String.length trail) (trail +:+ rest) = (trail, rest).
Proof.
  induction trail as [|b trail IH]; intros H.
  - simpl. by destruct rest.
  - simpl in H. apply andb_true_iff in H as [Hb H].
    rewrite append_cons. simpl. by rewrite Hb, (IH H).
Qed.

Lemma characters_from_enough (fuel1 fuel2 : nat) (s : string) :
  (String.length s <= fuel1)%nat -> (String.length s <= fuel2)%nat ->
  characters_from fuel1 s = characters_from fuel2 s.
Proof.
  revert fuel2 s. induction fuel1 as [|f1 IH]; intros fuel2 s H1 H2.
  - destruct s; [|simpl in H1; lia]. by destruct fuel2.
  - destruct s as [|b rest]; [by destruct fuel2|].
    destruct fuel2 as [|f2]; [simpl in H2; lia|].
    simpl. destruct (take_continuation (trailing_bytes b) rest)
      as [trail rest'] eqn:E.
    f_equal. apply take_continuation_spec in E as (-> & _ & _).
    simpl in H1, H2. rewrite append_length in H1, H2. apply IH; lia.
Qed.

Lemma characters_cons (b : ascii) (rest trail rest' : string) :
  take_continuation (trailing_bytes b) rest = (trail, rest') ->
  characters (String b rest) = String b trail :: characters rest'.
Proof.
  intros E. unfold characters. simpl. rewrite E. f_equal.
  apply take_continuation_spec in E as (-> & _ & _).
  apply characters_from_enough; rewrite ?append_length; lia.
Qed.

(** A character that has all its bytes is cut off as it is. *)
Lemma characters_complete (c rest : string) :
  is_complete c -> characters (c +:+ rest) = c :: characters rest.
Proof.
  intros (b & trail & -> & Hall & Hlen). rewrite append_cons.
  apply characters_cons. rewrite <- Hlen. by apply take_continuation_exact.
Qed.

(** The characters of a text spell the text, nothing lost, and each is a
    first byte with the continuation bytes that follow it. *)
Lemma characters_spell_from (n : nat) (s : string) :
  (String.length s <= n)%nat ->
  concat_strings (characters s) = s /\ Forall is_character (characters s).
Proof.
  revert s. induction n as [|n IH]; intros s H.
  - destruct s; [split; [reflexivity|constructor]|simpl in H; lia].
  - destruct s as [|b rest]; [split; [reflexivity|constructor]|].
    destruct (take_continuation (trailing_bytes b) rest) as [trail rest'] eqn:E.
    rewrite (characters_cons _ _ _ _ E).
    pose proof (take_continuation_spec _ _ _ _ E) as (Hrest & Hall & Hlen).
    subst rest. simpl in H. rewrite append_length in H.
    destruct (IH rest' ltac:(lia)) as [Hs Hc].
    split.
    + simpl. rewrite Hs. by rewrite append_cons.
    + constructor; [by exists b, trail|exact Hc].
Qed.

Lemma characters_spell (s : string) :
  concat_strings (characters s) = s /\ Forall is_character (characters s).
Proof. by apply (characters_spell_from (String.length s)). Qed.

Section Runs.

Variable cls : string -> bool.
Variable repl : string.





End Runs.





(** *** Pagination slicer *)

Lemma elements_between_from {A : Type} (lo hi k : Z) (l : list A) :
  lo <= k ->
  elements_between lo hi k l = take (Z.to_nat (hi - k)) l.
Proof.
  revert k. induction l as [|x l IH]; intros k Hk; simpl.
  { by rewrite take_nil. }
  rewrite IH by lia.
  destruct (lo <=? k) eqn:E1; [|lia].
  destruct (k <? hi) eqn:E2; simpl.
  - replace (Z.to_nat (hi - k)) with (S (Z.to_nat (hi - (k + 1)))) by lia.
    reflexivity.
  - replace (Z.to_nat (hi - (k + 1))) with 0%nat by lia.
    replace (Z.to_nat (hi - k)) with 0%nat by lia.
    reflexivity.
Qed.

Lemma elements_between_upto {A : Type} (lo hi k : Z) (l : list A) :
  k <= lo ->
  elements_between lo hi k l =
  take (Z.to_nat (hi - lo)) (drop (Z.to_nat (lo - k)) l).
Proof.
  revert k. induction l as [|x l IH]; intros k Hk; simpl.
  { by rewrite drop_nil, take_nil. }
  destruct (lo <=? k) eqn:E1.
  - assert (k = lo) as -> by lia.
    replace (Z.to_nat (lo - lo)) with 0%nat by lia. simpl.
    rewrite elements_between_from by lia.
    destruct (lo <? hi) eqn:E2; simpl.
    + replace (Z.to_nat (hi - lo)) with (S (Z.to_nat (hi - (lo + 1)))) by lia.
      reflexivity.
    + replace (Z.to_nat (hi - (lo + 1))) with 0%nat by lia.
      replace (Z.to_nat (hi - lo)) with 0%nat by lia.
      reflexivity.
  - simpl. rewrite IH by lia.
    replace (Z.to_nat (lo - k)) with (S (Z.to_nat (lo - (k + 1)))) by lia.
    reflexivity.
Qed.

Lemma elements_at_positions_take_drop {A : Type} (l : list A) (lo hi : Z) :
  0 <= lo ->
  elements_at_positions l lo hi = take (Z.to_nat (hi - lo)) (drop (Z.to_nat lo) l).
Proof.
  intros Hlo. unfold elements_at_positions.
  rewrite elements_between_upto by lia. by rewrite Z.sub_0_r.
Qed.

Lemma py_slice_forward {A : Type} (l : list A) (start len : Z) :
  0 <= start -> 0 <= len ->
  py_slice l start (start + len) = take (Z.to_nat len) (drop (Z.to_nat start) l).
Proof.
  intros Hs Hl. unfold py_slice, slice_bound.
  destruct (start <? 0) eqn:E1; [lia|].
  destruct (start + len <? 0) eqn:E2; [lia|].
  set (n := Z.of_nat (length l)).
  destruct (decide (n <= start)) as [Hge|Hlt].
  - rewrite !drop_ge by lia. by rewrite !take_nil.
  - rewrite (Z.min_l start n) by lia.
    destruct (decide (start + len <= n)) as [Hin|Hout].
    + rewrite (Z.min_l (start + len) n) by lia. f_equal. lia.
    + rewrite (Z.min_r (start + len) n) by lia.
      rewrite !take_ge; [done|rewrite length_drop; lia..].
Qed.

(** C6, as amended: with [page_length = -1] the collection is returned as it
    is; with a start offset and a page length that are not negative, the
    result is exactly the elements at the positions from [start_offset] up
    to, not including, [start_offset + page_length], in order, as many of
    these positions as the collection has; so a page length of 25 at start
    offset 50 of a collection of 100 elements gives its elements 50 to 74. *)
Theorem paginate_object_list_page (self : View) (object_list : list value) :
  let start := start_offset (datatable_options self) in
  let len := page_length (datatable_options self) in
  (len = -1 -> paginate_object_list self object_list = object_list)
  /\ (0 <= start -> 0 <= len ->
      paginate_object_list self object_list =
        elements_at_positions object_list start (start + len)
      /\ paginate_object_list self object_list =
        take (Z.to_nat len) (drop (Z.to_nat start) object_list))
  /\ (start = 50 -> len = 25 -> length object_list = 100%nat ->
      length (paginate_object_list self object_list) = 25%nat
      /\ forall k : nat, (k < 25)%nat ->
           paginate_object_list self object_list !! k = object_list !! (50 + k)%nat).
Proof.
  intros start len. unfold paginate_object_list. fold start len.
  assert (Hpage : 0 <= start -> 0 <= len ->
            (if negb (len =? -1) then py_slice object_list start (start + len)
             else object_list) =
            take (Z.to_nat len) (drop (Z.to_nat start) object_list)).
  { intros Hs Hl. destruct (len =? -1) eqn:E; [lia|]. simpl.
    by apply py_slice_forward. }
  split_and!.
  - intros ->. reflexivity.
  - intros Hs Hl. rewrite Hpage by done. split; [|done].
    rewrite elements_at_positions_take_drop by done. f_equal. lia.
  - intros Hs Hl Hn. rewrite Hpage by lia. rewrite Hs, Hl. split.
    + rewrite length_take, length_drop. lia.
    + intros k Hk. rewrite lookup_take_lt by lia. rewrite lookup_drop.
      f_equal.
Qed.


(** *** Default attribute-chain resolver *)

Lemma mapM_Forall2 {A B : Type} (f : A -> result B) (l : list A) (rs : list B) :
  mapM f l = Ok rs -> Forall2 (fun x r => f x = Ok r) l rs.
Proof.
  revert rs. induction l as [|x l IH]; intros rs H; simpl in H.
  { injection H as <-. constructor. }
  destruct (f x) as [y|e] eqn:Ex; simpl in H; [|discriminate].
  destruct (mapM f l) as [ys|e] eqn:El; simpl in H; [|discriminate].
  injection H as <-. constructor; [done|by apply IH].
Qed.

Lemma mapM_all_ok {A B : Type} (f : A -> result B) (l : list A) (b : B) :
  (forall x, x ∈ l -> f x = Ok b) -> mapM f l = Ok (replicate (length l) b).
Proof.
  induction l as [|x l IH]; intros H; simpl; [reflexivity|].
  rewrite (H x) by (by left). simpl.
  rewrite IH by (intros y Hy; apply H; by right). reflexivity.
Qed.

(** Any exception raised by the attribute lookup reaches a handler whose
    tuple of classes names [ObjectDoesNotExist], which the module does not
    bind. *)
Lemma chain_lookup_raises (obj : value) (bit : string) (e : exn) :
  getattr obj bit = Raise e ->
  chain_lookup obj bit = Raise (NameError "ObjectDoesNotExist").
Proof.
  intros H. unfold chain_lookup, chain_lookup_in. rewrite H. reflexivity.
Qed.

(** In a namespace that binds [ObjectDoesNotExist] the handler absorbs the
    two exceptions it lists and lets the others through. *)
Lemma chain_lookup_in_bound (globals : list string) (obj : value)
  (bit : string) (e : exn) :
  "ObjectDoesNotExist" ∈ globals ->
  getattr obj bit = Raise e ->
  chain_lookup_in globals obj bit =
  if bool_decide (exn_class e = "AttributeError" \/
                  exn_class e = "ObjectDoesNotExist")
  then Ok VNone else Raise e.
Proof.
  intros Hin H. unfold chain_lookup_in, handler_catches, lookup_global.
  rewrite H. simpl.
  rewrite (bool_decide_eq_true_2 ("AttributeError" ∈ globals ++ builtin_names))
    by (apply elem_of_app; right; by left).
  rewrite (bool_decide_eq_true_2 ("ObjectDoesNotExist" ∈ globals ++ builtin_names))
    by (apply elem_of_app; by left).
  simpl.
  rewrite (bool_decide_ext (exn_class e ∈ ["AttributeError"; "ObjectDoesNotExist"])
             (exn_class e = "AttributeError" \/ exn_class e = "ObjectDoesNotExist"));
    [reflexivity|].
  rewrite !elem_of_cons, elem_of_nil. tauto.
Qed.

Lemma combine_values_cases (values : list value) :
  (forall v, values = [v] -> combine_values values = v)
  /\ (length values <> 1%nat ->
      combine_values values = VStr (join " " (map text_type values))).
Proof.
  split.
  - intros v ->. reflexivity.
  - intros H. destruct values as [|v [|w values]]; simpl in *; done.
Qed.

(** C7: when every source field of the column resolves, the default resolver
    returns; one value was obtained per source field, those that are [None]
    are left out, a single remaining value is the display value as it is,
    several are put into text and joined with one space, and the search value
    is the display value. *)
Theorem default_resolver_collects (instance : value)
  (column : FieldDefinitionTuple) (resolved : list value) :
  mapM (field_value chain_lookup instance) (elements (fields column)) = Ok resolved ->
  exists display,
    _get_column_data_default instance column = Ok (display, display)
    /\ Forall2 (fun field_name v => field_value chain_lookup instance field_name = Ok v)
         (elements (fields column)) resolved
    /\ (forall v, List.filter not_none resolved = [v] -> display = v)
    /\ ((1 < length (List.filter not_none resolved))%nat ->
        display =
        VStr (join " " (map text_type (List.filter not_none resolved)))).
Proof.
  intros H. exists (combine_values (List.filter not_none resolved)).
  split_and!.
  - unfold _get_column_data_default, get_column_data_default_in.
    fold chain_lookup. rewrite H. reflexivity.
  - by apply mapM_Forall2.
  - apply combine_values_cases.
  - intros Hlen. apply combine_values_cases. lia.
Qed.

(** C9: when every source field of the column resolves to [None], and so
    when the column has no source field, the default resolver returns the
    pair of two empty texts. *)
Theorem default_resolver_all_none (instance : value)
  (column : FieldDefinitionTuple) :
  (forall field_name, field_name ∈ elements (fields column) ->
     field_value chain_lookup instance field_name = Ok VNone) ->
  _get_column_data_default instance column = Ok (VStr "", VStr "").
Proof.
  intros H. unfold _get_column_data_default, get_column_data_default_in.
  fold chain_lookup. rewrite (mapM_all_ok _ _ VNone H). simpl.
  replace (List.filter not_none (replicate (length (elements (fields column))) VNone))
    with (@nil value); [reflexivity|].
  induction (length (elements (fields column))) as [|n IH]; [reflexivity|].
  simpl. exact IH.
Qed.


(** *** Row and response assemblers *)

Lemma pretty_N_char_digit (x : N) : is_digit (pretty_N_char x) = true.
Proof. unfold pretty_N_char. repeat case_match; reflexivity. Qed.

Lemma pretty_N_go_head_digit (x : N) (s : string) :
  head_digit s -> head_digit (pretty_N_go x s).
Proof.
  revert s. induction (N.lt_wf_0 x) as [x _ IH]; intros s Hs.
  assert (x = 0 \/ 0 < x)%N as [->|Hpos] by lia.
  - by rewrite pretty_N_go_0.
  - rewrite pretty_N_go_step by done. apply IH.
    + by apply N.div_lt.
    + simpl. apply pretty_N_char_digit.
Qed.

Lemma str_of_index_head_digit (i : nat) : head_digit (str_of_index i).
Proof.
  unfold str_of_index, pretty, pretty_nat, pretty, pretty_N.
  case_decide as Hz; [reflexivity|].
  rewrite pretty_N_go_step by lia. apply pretty_N_go_head_digit.
  simpl. apply pretty_N_char_digit.
Qed.

Lemma str_of_index_not_row_id (i : nat) : str_of_index i <> "DT_RowId".
Proof.
  intros H. pose proof (str_of_index_head_digit i) as Hd.
  rewrite H in Hd. simpl in Hd. discriminate.
Qed.

Lemma str_of_index_inj (i j : nat) : str_of_index i = str_of_index j -> i = j.
Proof. unfold str_of_index. apply (inj pretty). Qed.

Lemma dict_set_fresh {A : Type} (k : string) (v : A) (d : list (string * A)) :
  k ∉ d.*1 -> dict_set k v d = d ++ [(k, v)].
Proof.
  induction d as [|[k' a] d IH]; intros Hk; simpl; [reflexivity|].
  rewrite fmap_cons, not_elem_of_cons in Hk. destruct Hk as [Hne Hk].
  simpl in Hne. destruct (String.eqb k k') eqn:E.
  - apply String.eqb_eq in E. done.
  - by rewrite IH.
Qed.

Lemma cells_keys (first : nat) (displays : list value) :
  (cells first displays).*1 = map str_of_index (seq first (length displays)).
Proof.
  unfold cells. revert first.
  induction displays as [|d displays IH]; intros first; [reflexivity|].
  rewrite imap_cons, fmap_cons. simpl. f_equal; [by rewrite Nat.add_0_r|].
  rewrite <- IH. f_equal. apply imap_ext. intros j x _. simpl.
  by rewrite Nat.add_succ_r.
Qed.

Lemma record_columns_appends (self : View) (obj : value) (names : list value) :
  forall (i : nat) (data row : list (string * value)),
    (forall j, (i <= j)%nat -> str_of_index j ∉ data.*1) ->
    record_columns self obj i names data = Ok row ->
    exists displays,
      displays_of self obj i names displays /\ row = data ++ cells i displays.
Proof.
  induction names as [|name names IH]; intros i data row Hfresh H; simpl in H.
  { injection H as <-. exists []. split; [by split|].
    by rewrite app_nil_r. }
  destruct (get_column_data self i name obj) as [values|e] eqn:Ev;
    simpl in H; [|discriminate].
  destruct (item0 values) as [d|e] eqn:Ed; simpl in H; [|discriminate].
  rewrite dict_set_fresh in H by (apply Hfresh; lia).
  apply IH in H as (displays & [Hlen Hall] & ->).
  - exists (d :: displays). split.
    + split; [simpl; by rewrite Hlen|].
      intros [|j] name' Hj; simpl in Hj.
      * injection Hj as <-. exists d. split; [done|].
        unfold display_value. by rewrite Nat.add_0_r, Ev.
      * destruct (Hall j name' Hj) as (d' & Hd' & Hv). exists d'.
        split; [done|]. by rewrite Nat.add_succ_r.
    + rewrite <- app_assoc. f_equal. unfold cells. rewrite imap_cons. simpl.
      rewrite Nat.add_0_r. f_equal. apply imap_ext. intros j x _. simpl.
      by rewrite Nat.add_succ_r.
  - intros j Hj. rewrite fmap_app, not_elem_of_app. split.
    + apply Hfresh. lia.
    + simpl. rewrite list_elem_of_singleton. intros Heq.
      apply str_of_index_inj in Heq. lia.
Qed.

Lemma get_record_data_row (self : View) (obj : value) (row : list (string * value)) :
  get_record_data self obj = Ok row -> row_record_of self obj row.
Proof.
  unfold get_record_data. intros H.
  destruct (getattr obj "pk") as [pk|e] eqn:Epk; simpl in H; [|discriminate].
  apply record_columns_appends in H as (displays & Hall & ->).
  - exists pk, displays. split_and!; [done|exact Hall|reflexivity|].
    simpl. rewrite cells_keys. unfold row_keys. do 2 f_equal.
    by destruct Hall as [-> _].
  - intros j _. simpl. rewrite list_elem_of_singleton.
    apply str_of_index_not_row_id.
Qed.

(** C5: when the row assembler returns for every object of the page, the
    response assembler returns the payload whose keys are exactly [sEcho],
    [iTotalRecords], [iTotalDisplayRecords] and [aaData]: [sEcho] is the
    request's token as it came, or [None] when the request has none, the two
    counts are those the collection carries, whatever the page, and [aaData]
    has one object per object of the page, with ["DT_RowId"] and the column
    indices as text for keys, each cell being the text of the column's
    display value. *)
Theorem ajax_response_payload (self : View) (object_list : ObjectListResult)
  (rows : list (list (string * value))) :
  mapM (get_record_data self) (paginate_object_list self (items object_list))
    = Ok rows ->
  get_ajax_response_data self object_list =
    Ok (VDict [ ("sEcho", match request_GET self !! "sEcho" with
                          | Some token => VStr token
                          | None => VNone
                          end);
                ("iTotalRecords", _dtv_total_initial_record_count object_list);
                ("iTotalDisplayRecords", _dtv_unpaged_total object_list);
                ("aaData", VList (map VDict rows)) ])
  /\ Forall2 (row_record_of self)
       (paginate_object_list self (items object_list)) rows.
Proof.
  intros H. split.
  - unfold get_ajax_response_data, get_json_response_object. rewrite H.
    reflexivity.
  - apply mapM_Forall2 in H. eapply Forall2_impl; [exact H|].
    intros obj row. apply get_record_data_row.
Qed.


(** *** Structure descriptor: the ordering map *)

Lemma ordering_step_spec (options : DatatableOptions)
  (m : gmap string ColumnOrderingTuple) (i : nat) (name : string) :
  (name = "" -> get_column_index options "" = -1) ->
  ordering_step options m i name =
  Ok (if get_column_index options (plain_name_of name) =? -1 then m
      else <[plain_name_of name := ordering_entry options i name]> m).
Proof.
  intros Hne. unfold ordering_step, ordering_entry, direction_of.
  fold (plain_name_of name).
  destruct (get_column_index options (plain_name_of name) =? -1) eqn:E;
    [reflexivity|].
  destruct name as [|c name]; [|reflexivity].
  change (plain_name_of "") with "" in E.
  rewrite Hne in E by done. discriminate.
Qed.

Lemma ordering_loop_spec (options : DatatableOptions) (names : list string) :
  forall (i : nat) (m : gmap string ColumnOrderingTuple),
    names_indexable options names ->
    exists m',
      ordering_loop options i names m = Ok m'
      /\ (forall k t, m' !! k = Some t ->
            m !! k = Some t \/
            exists j name, names !! j = Some name /\ plain_name_of name = k
                           /\ resolvable options name
                           /\ t = ordering_entry options (i + j) name)
      /\ (forall j name, names !! j = Some name -> resolvable options name ->
            (forall j' name', (j < j')%nat -> names !! j' = Some name' ->
                              plain_name_of name' <> plain_name_of name) ->
            m' !! plain_name_of name = Some (ordering_entry options (i + j) name))
      /\ (forall k, (forall name, name ∈ names -> plain_name_of name = k ->
                                  ~ resolvable options name) ->
            m' !! k = m !! k).
Proof.
  induction names as [|n names IH]; intros i m Hidx.
  { exists m. split_and!; [reflexivity|by left| |done].
    intros j name Hj. by rewrite lookup_nil in Hj. }
  simpl. rewrite ordering_step_spec by (apply Hidx; by left). simpl.
  set (m1 := if get_column_index options (plain_name_of n) =? -1 then m
             else <[plain_name_of n := ordering_entry options i n]> m).
  destruct (IH (S i) m1) as (m' & Hrun & Hsound & Hlast & Hframe).
  { intros name Hin. apply Hidx. by right. }
  exists m'. split_and!; [exact Hrun| | |].
  - intros k t Hk. destruct (Hsound k t Hk) as [Hm1|(j & name & Hj & Hp & Hr & ->)].
    + unfold m1 in Hm1.
      destruct (get_column_index options (plain_name_of n) =? -1) eqn:E;
        [by left|].
      destruct (decide (plain_name_of n = k)) as [<-|Hne].
      * rewrite lookup_insert_eq in Hm1. injection Hm1 as <-.
        right. exists 0%nat, n. rewrite Nat.add_0_r.
        split_and!; [done|done| |done]. unfold resolvable. lia.
      * rewrite lookup_insert_ne in Hm1 by done. by left.
    + right. exists (S j), name. rewrite Nat.add_succ_r. by split_and!.
  - intros [|j] name Hj Hres Hlater; simpl in Hj.
    + injection Hj as <-. rewrite Nat.add_0_r. rewrite Hframe.
      * unfold m1. unfold resolvable in Hres.
        destruct (get_column_index options (plain_name_of n) =? -1) eqn:E;
          [lia|]. by rewrite lookup_insert_eq.
      * intros name Hin Hp. exfalso.
        apply list_elem_of_lookup in Hin as [j' Hj'].
        by eapply (Hlater (S j') name); [lia|exact Hj'|].
    + rewrite Nat.add_succ_r. apply Hlast; [done|done|].
      intros j' name' Hlt Hj'. apply (Hlater (S j') name'); [lia|exact Hj'].
  - intros k Hk. rewrite Hframe.
    + unfold m1.
      destruct (get_column_index options (plain_name_of n) =? -1) eqn:E;
        [done|].
      rewrite lookup_insert_ne; [done|]. intros Hp.
      apply (Hk n); [by left|done|]. unfold resolvable. lia.
    + intros name Hin. apply Hk. by right.
Qed.

(** C8: when no entry of the ordering is the empty name while the empty name
    resolves to a column, constructing the structure object goes through the
    active ordering option in sequence; each signed field name loses its leading [+] and [-]
    characters and the plain name is resolved to a column index; a name that
    resolves to no column is skipped without an error and records nothing; a
    name that resolves records its position in the sequence, the column index
    and the direction, which is ["desc"] exactly when the name begins with
    ["-"] and ["asc"] otherwise; the record is kept under the plain name,
    where a later entry of the same plain name replaces it. *)
Theorem structure_ordering_built (ajax_url : string)
  (options : DatatableOptions) (model : value) :
  names_indexable options (ordering options) ->
  exists s,
    DatatableStructure_init ajax_url options model = Ok s
    /\ (forall k t, structure_ordering s !! k = Some t ->
          exists name,
            ordering options !! order t = Some name
            /\ plain_name_of name = k
            /\ column_index t = get_column_index options k
            /\ column_index t <> -1
            /\ direction t = (if leading_minus name then "desc" else "asc"))
    /\ (forall i name,
          ordering options !! i = Some name -> ~ resolvable options name ->
          forall k t, structure_ordering s !! k = Some t -> order t <> i)
    /\ (forall i name,
          ordering options !! i = Some name -> resolvable options name ->
          (forall i' name', (i < i')%nat -> ordering options !! i' = Some name' ->
                            plain_name_of name' <> plain_name_of name) ->
          structure_ordering s !! plain_name_of name =
          Some {| order := i;
                  column_index := get_column_index options (plain_name_of name);
                  direction := if leading_minus name then "desc" else "asc" |})
    /\ (forall k,
          (forall name, name ∈ ordering options -> plain_name_of name = k ->
                        ~ resolvable options name) ->
          structure_ordering s !! k = None).
Proof.
  intros Hidx.
  destruct (ordering_loop_spec options (ordering options) 0 ∅ Hidx)
    as (m & Hrun & Hsound & Hlast & Hframe).
  assert (Hinit : DatatableStructure_init ajax_url options model =
                  Ok {| url := ajax_url; options := options; model := model;
                        structure_ordering := m |}).
  { unfold DatatableStructure_init.
    destruct (ordering options) as [|n names] eqn:E.
    - simpl in Hrun. injection Hrun as <-. reflexivity.
    - rewrite Hrun. reflexivity. }
  assert (Hentry : forall k t, m !! k = Some t ->
            exists name, ordering options !! order t = Some name
                         /\ plain_name_of name = k /\ resolvable options name
                         /\ t = ordering_entry options (order t) name).
  { intros k t Hk. destruct (Hsound k t Hk) as [Hm|(j & name & Hj & Hp & Hr & ->)].
    - by rewrite lookup_empty in Hm.
    - exists name. by split_and!. }
  eexists. split; [exact Hinit|]. simpl. split_and!.
  - intros k t Hk. destruct (Hentry k t Hk) as (name & Hj & Hp & Hr & Ht).
    exists name. rewrite Ht. simpl. unfold resolvable in Hr. subst k.
    by split_and!.
  - intros i name Hi Hnr k t Hk Ho.
    destruct (Hentry k t Hk) as (name' & Hj & Hp & Hr & Ht).
    rewrite Ho, Hi in Hj. injection Hj as <-. done.
  - intros i name Hi Hr Hlater.
    rewrite (Hlast i name Hi Hr Hlater). reflexivity.
  - intros k Hk. rewrite (Hframe k Hk). apply lookup_empty.
Qed.


(** *** Resolver dispatcher *)

Lemma lookup_name_absent (column : FieldDefinitionTuple) :
  pretty_name column = VNone -> lookup_name column = Ok (VStr "None").
Proof. unfold lookup_name. by intros ->. Qed.

Lemma lookup_name_empty (column : FieldDefinitionTuple) :
  pretty_name column = VStr "" -> lookup_name column = item0 (fields column).
Proof. unfold lookup_name. by intros ->. Qed.

Lemma lookup_name_text (column : FieldDefinitionTuple) (s : string) :
  pretty_name column = VStr s -> s <> "" -> lookup_name column = Ok (VStr s).
Proof.
  unfold lookup_name. intros -> Hs. simpl.
  destruct (String.eqb s "") eqn:E; [|reflexivity].
  by apply String.eqb_eq in E.
Qed.

(** X3: the order of the dispatcher: an override that is callable is the
    resolver, whatever the view defines; an override that is a name is
    looked up on the view, which fails when the view has no such attribute;
    without an override the method named after the mangled lookup name
    comes first, the method named after the column index next, and the
    default resolver last, which is the only one not reported as custom. *)
Lemma resolver_dispatch_order (self : View) (i : nat)
  (column : FieldDefinitionTuple) :
  (callable (callback column) = true ->
   _get_resolver_method self i column = Ok (true, ResolverValue (callback column)))
  /\ (forall attr, callback column = VStr attr -> attr <> "" ->
      _get_resolver_method self i column =
      match view_attrs self !! attr with
      | Some f => Ok (true, ResolverValue f)
      | None => Raise AttributeError
      end)
  /\ (truthy (callback column) = false ->
      forall name, lookup_name column = Ok (VStr name) ->
      _get_resolver_method self i column =
      let by_name := view_getattr_default self (name_method (mangle name)) in
      let by_index := view_getattr_default self (index_method i) in
      if truthy by_name then Ok (true, ResolverValue by_name)
      else if truthy by_index then Ok (true, ResolverValue by_index)
      else Ok (false, DefaultResolver))
  /\ (forall is_custom r,
      _get_resolver_method self i column = Ok (is_custom, r) ->
      is_custom = false <-> r = DefaultResolver).
Proof.
  split_and!.
  - intros Hc. unfold _get_resolver_method.
    destruct (callback column); try discriminate. reflexivity.
  - intros attr Hcb Hne. unfold _get_resolver_method. rewrite Hcb. simpl.
    destruct (String.eqb attr "") eqn:E; [by apply String.eqb_eq in E|].
    simpl. by destruct (view_attrs self !! attr).
  - intros Hcb name Hname. unfold _get_resolver_method. rewrite Hcb.
    fold (lookup_name column). rewrite Hname. simpl.
    by repeat case_match.
  - intros is_custom r H. unfold _get_resolver_method in H.
    fold (lookup_name column) in H.
    unfold bind in H.
    repeat case_match; simplify_eq; split; congruence.
Qed.


(** *** Further properties of the normaliser, the mangling and the slicer *)

Lemma drop_none_idempotent (xs : list value) :
  drop_none (drop_none xs) = drop_none xs.
Proof.
  unfold drop_none. induction xs as [|x xs IH]; [reflexivity|].
  simpl. destruct (negb (is_none x)) eqn:E; simpl; [by rewrite E, IH|exact IH].
Qed.

Lemma get_field_definition_fields (fd : value) (col : FieldDefinitionTuple) :
  get_field_definition fd = Ok col ->
  exists xs, fields col = VTuple (drop_none xs).
Proof.
  intros H. destruct (is_tuple_or_list fd) eqn:E.
  - assert (exists b ys, fd = sequence b ys) as (b & ys & ->).
    { destruct fd; try discriminate; [by exists false; eexists|by exists true; eexists]. }
    rewrite get_field_definition_sequence in H.
    destruct_short ys; try discriminate;
      match type of H with
      | Ok ?c = Ok _ => assert (col = c) as -> by congruence
      end; eexists; reflexivity.
  - rewrite get_field_definition_scalar in H by done.
    match type of H with
    | Ok ?c = Ok _ => assert (col = c) as -> by congruence
    end. eexists; reflexivity.
Qed.

(** X1: normalising is idempotent: a normalised column, which is a tuple of
    three elements, normalises to itself. *)
Theorem get_field_definition_idempotent (fd : value) (col : FieldDefinitionTuple) :
  get_field_definition fd = Ok col ->
  get_field_definition (as_tuple col) = Ok col.
Proof.
  intros H. destruct (get_field_definition_fields fd col H) as [xs Hxs].
  unfold as_tuple. rewrite (get_field_definition_sequence false).
  destruct col as [p f c]. simpl in *. subst f.
  unfold as_source_fields. simpl. by rewrite drop_none_idempotent.
Qed.

Lemma re_sub_runs_kept (cls : string -> bool) (in_run : bool) (cs : list string) :
  re_sub_runs cls "_" in_run cs = concat_strings (kept_characters cls in_run cs).
Proof.
  revert in_run. induction cs as [|c cs IH]; intros in_run; [reflexivity|].
  simpl. destruct (cls c); [destruct in_run|]; simpl; by rewrite IH.
Qed.

Lemma characters_concat (cs : list string) (rest : string) :
  Forall is_complete cs ->
  characters (concat_strings cs +:+ rest) = cs ++ characters rest.
Proof.
  induction 1 as [|c cs Hc _ IH]; [reflexivity|].
  simpl. by rewrite string_append_assoc, characters_complete, IH.
Qed.

Lemma ascii_no_trailing_bytes (b : ascii) :
  is_ascii b = true -> trailing_bytes b = 0%nat.
Proof.
  unfold is_ascii, trailing_bytes. intros H. apply N.ltb_lt in H.
  destruct (N.ltb_spec (N_of_ascii b) 192); [reflexivity|lia].
Qed.

(** What the pattern takes for a letter or a digit has all its bytes. *)
Lemma alnum_character_complete (c : string) :
  is_character c -> is_alnum_character c = true -> is_complete c.
Proof.
  intros (b & trail & -> & Hall & Hlen) H. exists b, trail.
  split_and!; [reflexivity|exact Hall|].
  unfold is_alnum_character in H. destruct (is_ascii b) eqn:Eb.
  - rewrite (ascii_no_trailing_bytes b Eb) in *. lia.
  - apply andb_true_iff in H as [H _]. apply andb_true_iff in H as [_ H].
    by apply Nat.eqb_eq in H.
Qed.

Lemma underscore_complete : is_complete "_".
Proof. exists "_"%char, "". split_and!; reflexivity. Qed.

Lemma kept_characters_word (cs : list string) (in_run : bool) :
  Forall is_character cs ->
  Forall is_complete (kept_characters mangle_class in_run cs)
  /\ Forall is_word_character (kept_characters mangle_class in_run cs).
Proof.
  intros Hcs. revert in_run.
  induction Hcs as [|c cs Hc _ IH]; intros in_run; [by split|].
  simpl. destruct (mangle_class c) eqn:E.
  - destruct in_run; [apply IH|].
    destruct (IH true) as [H1 H2].
    split; constructor; try done; [apply underscore_complete|by right].
  - destruct (IH false) as [H1 H2].
    unfold mangle_class in E. apply negb_false_iff in E.
    split; constructor; try done; [by apply alnum_character_complete|by left].
Qed.

Lemma kept_characters_again (cs : list string) (in_run again : bool) :
  (again = true -> in_run = true) ->
  kept_characters mangle_class again (kept_characters mangle_class in_run cs) =
  kept_characters mangle_class in_run cs.
Proof.
  revert in_run again. induction cs as [|c cs IH]; intros in_run again Hflag.
  { reflexivity. }
  simpl. destruct (mangle_class c) eqn:E.
  - destruct in_run.
    + by apply IH.
    + destruct again; [by discriminate Hflag|].
      simpl. f_equal. by apply IH.
  - simpl. rewrite E. f_equal. by apply IH.
Qed.

Lemma characters_mangle (name : string) :
  characters (mangle name) = kept_characters mangle_class false (characters name).
Proof.
  unfold mangle. rewrite re_sub_runs_kept.
  rewrite <- (append_nil_r (concat_strings _)).
  rewrite characters_concat; [by rewrite app_nil_r|].
  apply kept_characters_word, characters_spell.
Qed.

(** X2: every character of a mangled name is a letter, a digit or the
    underscore, and so is every character of the method name made of it;
    and a mangled name mangles to itself. *)
Theorem mangle_gives_word_characters (name : string) :
  Forall is_word_character (characters (mangle name))
  /\ Forall is_word_character (characters (name_method (mangle name)))
  /\ mangle (mangle name) = mangle name.
Proof.
  pose proof (kept_characters_word (characters name) false
                (proj2 (characters_spell name))) as [Hcomplete Hword].
  split_and!.
  - by rewrite characters_mangle.
  - unfold name_method.
    change "get_column_" with (concat_strings (characters "get_column_")).
    rewrite characters_concat.
    + apply Forall_app. split.
      * repeat constructor; solve [by left|by right].
      * unfold mangle at 1. rewrite re_sub_runs_kept.
        rewrite characters_concat by exact Hcomplete.
        apply Forall_app. split; [exact Hword|].
        repeat constructor; solve [by left|by right].
    + repeat constructor; eexists _, ""; split_and!; reflexivity.
  - unfold mangle at 1. rewrite characters_mangle.
    rewrite re_sub_runs_kept, kept_characters_again by done.
    unfold mangle. by rewrite re_sub_runs_kept.
Qed.

Lemma py_slice_segment {A : Type} (l : list A) (i j : Z) :
  exists before after, l = before ++ py_slice l i j ++ after.
Proof.
  unfold py_slice.
  set (lo := Z.to_nat (slice_bound (Z.of_nat (length l)) i)).
  set (n := Z.to_nat (slice_bound (Z.of_nat (length l)) j
                      - slice_bound (Z.of_nat (length l)) i)).
  exists (take lo l), (drop n (drop lo l)).
  by rewrite (take_drop n), (take_drop lo).
Qed.

Lemma paginate_is_segment (self : View) (object_list : list value) :
  exists before after,
    object_list = before ++ paginate_object_list self object_list ++ after.
Proof.
  unfold paginate_object_list.
  destruct (negb (page_length (datatable_options self) =? -1)).
  - apply py_slice_segment.
  - exists [], []. by rewrite app_nil_r.
Qed.

Lemma paginate_length_le (self : View) (object_list : list value) :
  (length (paginate_object_list self object_list) <= length object_list)%nat.
Proof.
  destruct (paginate_is_segment self object_list) as (before & after & H).
  rewrite H at 2. rewrite !length_app. lia.
Qed.

Lemma paginate_take_drop (self : View) (object_list : list value) :
  0 <= start_offset (datatable_options self) ->
  0 <= page_length (datatable_options self) ->
  paginate_object_list self object_list =
  take (Z.to_nat (page_length (datatable_options self)))
    (drop (Z.to_nat (start_offset (datatable_options self))) object_list).
Proof.
  intros Hs Hl. unfold paginate_object_list.
  destruct (page_length (datatable_options self) =? -1) eqn:E; [lia|].
  simpl. by apply py_slice_forward.
Qed.

(** X4: whatever the start offset and the page length, negative ones
    included, the page is one contiguous stretch of the collection: nothing
    is reordered, repeated or made up, and the page is never longer than the
    collection. *)
Theorem paginate_object_list_segment (self : View) (object_list : list value) :
  (exists before after,
      object_list = before ++ paginate_object_list self object_list ++ after)
  /\ (length (paginate_object_list self object_list) <= length object_list)%nat.
Proof.
  split; [apply paginate_is_segment|apply paginate_length_le].
Qed.

Lemma paginate_with_page (self : View) (start len : Z) (l : list value) :
  0 <= start -> 0 <= len ->
  paginate_object_list (with_page self start len) l =
  take (Z.to_nat len) (drop (Z.to_nat start) l).
Proof.
  intros Hs Hl. unfold paginate_object_list. simpl.
  destruct (len =? -1) eqn:E; [lia|]. simpl. by apply py_slice_forward.
Qed.

(** X5: pages tile the collection: from a start offset that is not
    negative, a page of [a] rows followed by the page of [b] rows that starts
    where it ends is the page of [a + b] rows; and a page as long as the
    collection from offset 0 is what the page length -1 gives. *)
Theorem paginate_object_list_tiles (self : View) (start a b : Z)
  (object_list : list value) :
  0 <= start -> 0 <= a -> 0 <= b ->
  paginate_object_list (with_page self start a) object_list
    ++ paginate_object_list (with_page self (start + a) b) object_list
  = paginate_object_list (with_page self start (a + b)) object_list
  /\ paginate_object_list (with_page self 0 (Z.of_nat (length object_list))) object_list
     = paginate_object_list (with_page self 0 (-1)) object_list.
Proof.
  intros Hs Ha Hb. split.
  - rewrite !paginate_with_page by lia.
    replace (Z.to_nat (start + a)) with (Z.to_nat start + Z.to_nat a)%nat by lia.
    replace (Z.to_nat (a + b)) with (Z.to_nat a + Z.to_nat b)%nat by lia.
    rewrite <- drop_drop.
    generalize (drop (Z.to_nat start) object_list). intros l.
    rewrite <- (take_drop (Z.to_nat a) (take (Z.to_nat a + Z.to_nat b) l)).
    rewrite take_take, Nat.min_l by lia. f_equal.
    rewrite skipn_firstn_comm. f_equal. lia.
  - rewrite paginate_with_page by lia.
    rewrite Nat2Z.id. change (Z.to_nat 0) with 0%nat. rewrite drop_0.
    by rewrite take_ge by lia.
Qed.


(** *** Markup stripping *)

Lemma string_of_list_ascii_app (l1 l2 : list ascii) :
  string_of_list_ascii (l1 ++ l2) =
  string_of_list_ascii l1 +:+ string_of_list_ascii l2.
Proof.
  induction l1 as [|c l1 IH]; simpl; [reflexivity|].
  by rewrite append_cons, IH.
Qed.

Lemma append_String_assoc (a : string) (c : ascii) (b : string) :
  (a +:+ String c "") +:+ b = a +:+ String c b.
Proof.
  induction a as [|x a IH]; [reflexivity|]. by rewrite !append_cons, IH.
Qed.

Lemma rev_string_cons (c : ascii) (buf : list ascii) (t : string) :
  rev_string (c :: buf) +:+ t = rev_string buf +:+ String c t.
Proof.
  unfold rev_string. simpl. rewrite string_of_list_ascii_app. simpl.
  apply append_String_assoc.
Qed.

Lemma all_chars_rev_string (p : ascii -> bool) (buf : list ascii) :
  forallb p buf = true -> all_chars p (rev_string buf) = true.
Proof.
  unfold rev_string. intros H.
  assert (Hrev : forallb p (rev buf) = true).
  { rewrite forallb_forall in *. intros x Hx. apply H. by apply in_rev. }
  induction (rev buf) as [|c l IH]; [reflexivity|].
  simpl in *. apply andb_true_iff in Hrev as [Hc Hl]. by rewrite Hc, IH.
Qed.

(** A candidate that meets no [">"] is kept whole. *)
Lemma strip_tags_go_unclosed (t : string) (buf : list ascii) :
  all_chars not_gt t = true ->
  strip_tags_go (Some buf) t = String "<" (rev_string buf +:+ t).
Proof.
  revert buf. induction t as [|c t IH]; intros buf Ht; simpl.
  { by rewrite append_nil_r. }
  simpl in Ht. apply andb_true_iff in Ht as [Hc Ht].
  unfold not_gt in Hc. apply negb_true_iff in Hc. rewrite Hc.
  rewrite IH by done. by rewrite rev_string_cons.
Qed.

Lemma strip_tags_go_again (s : string) :
  strip_tags_go None (strip_tags_go None s) = strip_tags_go None s
  /\ forall buf, forallb not_gt buf = true ->
       strip_tags_go None (strip_tags_go (Some buf) s) = strip_tags_go (Some buf) s.
Proof.
  induction s as [|c s [IHnone IHsome]].
  - split; [reflexivity|]. intros buf Hbuf. simpl.
    rewrite strip_tags_go_unclosed by (by apply all_chars_rev_string).
    reflexivity.
  - split.
    + simpl. destruct (Ascii.eqb c "<") eqn:E.
      * by apply IHsome.
      * simpl. rewrite E. by rewrite IHnone.
    + intros buf Hbuf. simpl. destruct (Ascii.eqb c ">") eqn:E.
      * destruct buf as [|b buf]; [|exact IHnone].
        simpl. by rewrite IHnone.
      * apply IHsome. simpl. unfold not_gt at 1. by rewrite E.
Qed.

Lemma rev_string_length (buf : list ascii) :
  String.length (rev_string buf) = length buf.
Proof.
  unfold rev_string. rewrite <- length_rev.
  induction (rev buf) as [|c l IH]; simpl; [reflexivity|by rewrite IH].
Qed.

Lemma strip_tags_go_length (s : string) (tag : option (list ascii)) :
  (String.length (strip_tags_go tag s) <= state_size tag + String.length s)%nat.
Proof.
  revert tag. induction s as [|c s IH]; intros [buf|]; simpl.
  - rewrite rev_string_length. lia.
  - lia.
  - destruct (Ascii.eqb c ">").
    + destruct buf; simpl; pose proof (IH None); simpl in *; lia.
    + pose proof (IH (Some (c :: buf))). simpl in *. lia.
  - destruct (Ascii.eqb c "<").
    + pose proof (IH (Some [])). simpl in *. lia.
    + simpl. pose proof (IH None). simpl in *. lia.
Qed.

(** Reading the body of a tag and its [">"] drops the candidate. *)
Lemma strip_tags_go_closes (body after : string) (buf : list ascii) :
  all_chars not_gt body = true ->
  (buf <> [] \/ body <> "") ->
  strip_tags_go (Some buf) (body +:+ String ">" after) = strip_tags_go None after.
Proof.
  revert buf. induction body as [|c body IH]; intros buf Hbody Hne; simpl.
  - destruct buf; [by destruct Hne|reflexivity].
  - simpl in Hbody. apply andb_true_iff in Hbody as [Hc Hbody].
    unfold not_gt in Hc. apply negb_true_iff in Hc. rewrite Hc.
    apply IH; [done|by left].
Qed.

Lemma strip_tags_go_shrinks (before body after : string)
  (tag : option (list ascii)) :
  body <> "" -> all_chars not_gt body = true ->
  (String.length
     (strip_tags_go tag (before +:+ String "<" (body +:+ String ">" after)))
   < state_size tag
     + String.length (before +:+ String "<" (body +:+ String ">" after)))%nat.
Proof.
  intros Hne Hbody. revert tag.
  induction before as [|c before IH]; intros tag.
  - simpl. pose proof (strip_tags_go_length after None) as Hlen.
    rewrite append_length. simpl in *.
    destruct tag as [buf|]; simpl.
    + rewrite strip_tags_go_closes by (try done; by right). lia.
    + rewrite strip_tags_go_closes by (try done; by right). lia.
  - destruct tag as [buf|]; simpl.
    + destruct (Ascii.eqb c ">").
      * destruct buf; simpl; pose proof (IH None); simpl in *; lia.
      * pose proof (IH (Some (c :: buf))). simpl in *. lia.
    + destruct (Ascii.eqb c "<").
      * pose proof (IH (Some [])). simpl in *. lia.
      * simpl. pose proof (IH None). simpl in *. lia.
Qed.

Lemma strip_tags_idempotent (s : string) :
  strip_tags (strip_tags s) = strip_tags s.
Proof. unfold strip_tags. apply strip_tags_go_again. Qed.

Lemma strip_tags_no_tag (s : string) : ~ contains_tag (strip_tags s).
Proof.
  intros (before & body & after & Heq & Hne & Hbody).
  pose proof (strip_tags_go_shrinks before body after None Hne Hbody) as Hlt.
  rewrite <- Heq in Hlt. fold (strip_tags (strip_tags s)) in Hlt.
  rewrite strip_tags_idempotent in Hlt. simpl in Hlt. lia.
Qed.


(** *** Column data *)

Lemma assoc_dict_set_eq {A : Type} (k : string) (v : A) (d : list (string * A)) :
  assoc k (dict_set k v d) = Some v.
Proof.
  induction d as [|[k' a] d IH]; simpl.
  - by rewrite String.eqb_refl.
  - destruct (String.eqb k k') eqn:E; simpl; rewrite E; [reflexivity|exact IH].
Qed.

Lemma assoc_dict_set_ne {A : Type} (k k' : string) (v : A) (d : list (string * A)) :
  k <> k' -> assoc k' (dict_set k v d) = assoc k' d.
Proof.
  intros Hne. induction d as [|[k0 a] d IH]; simpl.
  - destruct (String.eqb k' k) eqn:E; [|reflexivity].
    apply String.eqb_eq in E. congruence.
  - destruct (String.eqb k k0) eqn:E; simpl.
    + apply String.eqb_eq in E. subst k0.
      destruct (String.eqb k' k) eqn:E'; [|reflexivity].
      apply String.eqb_eq in E'. congruence.
    + destruct (String.eqb k' k0); [reflexivity|exact IH].
Qed.

Lemma get_column_data_custom (self : View) (i : nat) (name instance : value)
  (column : FieldDefinitionTuple) (f : fn_id) (is_manager : bool)
  (alters_data : option value) (args : list value)
  (preloaded : list (string * value)) (default_value : value) :
  get_field_definition name = Ok column ->
  _get_resolver_method self i column =
    Ok (true, ResolverValue (VCallable f is_manager alters_data)) ->
  _get_preloaded_data self instance = Ok (args, preloaded) ->
  default_value_of instance column = Ok default_value ->
  get_column_data self i name instance =
  (values <- call_function f (instance :: args)
               (resolver_kwargs name default_value preloaded) ;;
   Ok (as_value_pair values)).
Proof.
  intros Hcol Hres Hpre Hdef. unfold get_column_data.
  rewrite Hcol. simpl. rewrite Hres. simpl. rewrite Hpre. simpl.
  unfold default_value_of in Hdef.
  destruct (_get_column_data_default instance column) as [[d sv]|e] eqn:Ed.
  - injection Hdef as ->. simpl.
    unfold resolver_kwargs, as_value_pair.
    destruct (call_function _ _ _) as [values|e]; simpl; [|reflexivity].
    by destruct (is_tuple_or_list values).
  - destruct e; try discriminate. injection Hdef as <-. simpl.
    unfold resolver_kwargs, as_value_pair.
    destruct (call_function _ _ _) as [values|e]; simpl; [|reflexivity].
    by destruct (is_tuple_or_list values).
Qed.

(** X7: a custom resolver that is a function is called with the row first
    and, after it, what the preload hook returned when that is a tuple or a
    list, nothing when it is a dictionary, and the returned value itself
    otherwise.  Its keyword arguments are the dictionary the hook returned,
    if it returned one, except that [default_value] is the search value of
    the default resolver ([None] when that raises [AttributeError]),
    [field_data] is the raw column declaration and [view] is the view,
    whatever the hook gave under these three names.  A return value that is
    a tuple or list is passed on as it is; any other becomes the pair of
    that value and its text with the tags removed, in which no tag is
    left. *)
Theorem custom_resolver_call (self : View) (i : nat) (name instance : value)
  (column : FieldDefinitionTuple) (f : fn_id) (is_manager : bool)
  (alters_data : option value) (preloaded_data default_value : value) :
  get_field_definition name = Ok column ->
  _get_resolver_method self i column =
    Ok (true, ResolverValue (VCallable f is_manager alters_data)) ->
  preload_record_data self instance = Ok preloaded_data ->
  default_value_of instance column = Ok default_value ->
  exists args preloaded kwargs,
    (forall kvs, preloaded_data = VDict kvs -> args = [] /\ preloaded = kvs)
    /\ (is_tuple_or_list preloaded_data = true ->
        args = elements preloaded_data /\ preloaded = [])
    /\ (is_dict preloaded_data = false -> is_tuple_or_list preloaded_data = false ->
        args = [preloaded_data] /\ preloaded = [])
    /\ assoc "default_value" kwargs = Some default_value
    /\ assoc "field_data" kwargs = Some name
    /\ assoc "view" kwargs = Some VView
    /\ (forall k, k <> "default_value" -> k <> "field_data" -> k <> "view" ->
          assoc k kwargs = assoc k preloaded)
    /\ (forall e, call_function f (instance :: args) kwargs = Raise e ->
          get_column_data self i name instance = Raise e)
    /\ (forall values, call_function f (instance :: args) kwargs = Ok values ->
          is_tuple_or_list values = true ->
          get_column_data self i name instance = Ok values)
    /\ (forall values, call_function f (instance :: args) kwargs = Ok values ->
          is_tuple_or_list values = false ->
          get_column_data self i name instance =
            Ok (VTuple [values; VStr (strip_tags (text_type values))])
          /\ ~ contains_tag (strip_tags (text_type values))).
Proof.
  intros Hcol Hres Hhook Hdef.
  assert (Hpre : exists args preloaded,
             _get_preloaded_data self instance = Ok (args, preloaded)
             /\ (forall kvs, preloaded_data = VDict kvs ->
                   args = [] /\ preloaded = kvs)
             /\ (is_tuple_or_list preloaded_data = true ->
                 args = elements preloaded_data /\ preloaded = [])
             /\ (is_dict preloaded_data = false ->
                 is_tuple_or_list preloaded_data = false ->
                 args = [preloaded_data] /\ preloaded = [])).
  { unfold _get_preloaded_data. rewrite Hhook. simpl.
    destruct preloaded_data; eexists _, _; (split; [reflexivity|]);
      split_and!; try discriminate; try done; intros kvs' [= <-]; done. }
  destruct Hpre as (args & preloaded & Hpre & Hdict & Hseq & Hother).
  pose proof (get_column_data_custom self i name instance column f is_manager
                alters_data args preloaded default_value Hcol Hres Hpre Hdef) as Hrun.
  exists args, preloaded, (resolver_kwargs name default_value preloaded).
  unfold resolver_kwargs at 1 2 3 4. split_and!.
  - exact Hdict.
  - exact Hseq.
  - exact Hother.
  - rewrite !assoc_dict_set_ne by discriminate. apply assoc_dict_set_eq.
  - rewrite assoc_dict_set_ne by discriminate. apply assoc_dict_set_eq.
  - apply assoc_dict_set_eq.
  - intros k H1 H2 H3. by rewrite !assoc_dict_set_ne by congruence.
  - intros e He. by rewrite Hrun, He.
  - intros values Hv Ht. rewrite Hrun, Hv. simpl.
    unfold as_value_pair. by rewrite Ht.
  - intros values Hv Ht. split; [|apply strip_tags_no_tag].
    rewrite Hrun, Hv. simpl. unfold as_value_pair. by rewrite Ht.
Qed.

(** X6: whatever the column and its resolver, what [get_column_data] returns
    is a tuple or a list; for a column that falls to the default resolver it
    is the pair of the display value and the same value again; and when the
    default resolver raises, so does [get_column_data], with the same
    exception. *)
Theorem get_column_data_returns_sequence (self : View) (i : nat)
  (name instance : value) :
  (forall values, get_column_data self i name instance = Ok values ->
     is_tuple_or_list values = true)
  /\ (forall column r,
        get_field_definition name = Ok column ->
        _get_resolver_method self i column = Ok (false, r) ->
        get_column_data self i name instance =
        (pair <- _get_column_data_default instance column ;;
         Ok (VTuple [fst pair; snd pair]))
        /\ forall values, get_column_data self i name instance = Ok values ->
             exists d, values = VTuple [d; d]).
Proof.
  split.
  - intros values H. unfold get_column_data, bind in H.
    repeat case_match; simplify_eq; try reflexivity;
      match goal with
      | E : negb (is_tuple_or_list ?v) = false |- _ =>
          by apply negb_false_iff in E
      end.
  - intros column r Hcol Hres.
    assert (Hrun : get_column_data self i name instance =
                   (pair <- _get_column_data_default instance column ;;
                    Ok (VTuple [fst pair; snd pair]))).
    { unfold get_column_data. rewrite Hcol. simpl. rewrite Hres. simpl.
      by destruct (_get_column_data_default instance column). }
    split; [exact Hrun|].
    intros values H. rewrite Hrun in H.
    unfold _get_column_data_default, get_column_data_default_in, bind in H.
    repeat case_match; simplify_eq. simpl. by eexists.
Qed.


(** *** Rows by key, and the number of rows *)

Lemma assoc_cells (displays : list value) :
  forall (first j : nat) (d : value),
    displays !! j = Some d ->
    assoc (str_of_index (first + j)) (cells first displays) =
    Some (VStr (text_type d)).
Proof.
  unfold cells. induction displays as [|x displays IH]; intros first j d Hj.
  { by rewrite lookup_nil in Hj. }
  rewrite imap_cons. simpl. rewrite Nat.add_0_r.
  destruct j as [|j]; simpl in Hj.
  - injection Hj as ->. by rewrite Nat.add_0_r, String.eqb_refl.
  - destruct (String.eqb (str_of_index (first + S j)) (str_of_index first)) eqn:E.
    + apply String.eqb_eq, str_of_index_inj in E. lia.
    + rewrite <- (IH (S first) j d Hj).
      rewrite Nat.add_succ_r. simpl. f_equal.
      apply imap_ext. intros k y _. simpl. by rewrite Nat.add_succ_r.
Qed.

Lemma assoc_elem_of {A : Type} (k : string) (a : A) (l : list (string * A)) :
  assoc k l = Some a -> k ∈ l.*1.
Proof.
  induction l as [|[k' a'] l IH]; simpl; [discriminate|].
  destruct (String.eqb k k') eqn:E.
  - apply String.eqb_eq in E. subst. intros _. by left.
  - intros H. right. by apply IH.
Qed.

(** X16: in the record of a row, ["DT_RowId"] gives the row's [pk], the
    index of a column written as text gives the text of that column's display
    value, and there is no other key. *)
Theorem get_record_data_lookup (self : View) (obj : value)
  (row : list (string * value)) :
  get_record_data self obj = Ok row ->
  (exists pk, getattr obj "pk" = Ok pk /\ assoc "DT_RowId" row = Some pk)
  /\ (forall j name,
        columns (datatable_options self) !! j = Some name ->
        exists d, display_value self obj j name = Ok d
                  /\ assoc (str_of_index j) row = Some (VStr (text_type d)))
  /\ (forall k v, assoc k row = Some v ->
        k = "DT_RowId" \/
        exists j, (j < length (columns (datatable_options self)))%nat
                  /\ k = str_of_index j).
Proof.
  intros H. apply get_record_data_row in H
    as (pk & displays & Hpk & [Hlen Hall] & -> & Hkeys).
  split_and!.
  - exists pk. split; [exact Hpk|reflexivity].
  - intros j name Hj. destruct (Hall j name Hj) as (d & Hd & Hv).
    exists d. split; [exact Hv|].
    simpl. destruct (String.eqb (str_of_index j) "DT_RowId") eqn:E.
    + apply String.eqb_eq in E. by apply str_of_index_not_row_id in E.
    + by apply (assoc_cells displays 0 j d).
  - intros k v Hk. apply assoc_elem_of in Hk. rewrite Hkeys in Hk.
    unfold row_keys in Hk. apply elem_of_cons in Hk as [->|Hk]; [by left|].
    right. apply list_elem_of_fmap in Hk as (j & -> & Hj).
    apply elem_of_seq in Hj. exists j. split; [lia|reflexivity].
Qed.

Lemma mapM_length {A B : Type} (f : A -> result B) (l : list A) (rs : list B) :
  mapM f l = Ok rs -> length rs = length l.
Proof.
  intros H. apply mapM_Forall2 in H. symmetry. by eapply Forall2_length.
Qed.

Lemma mapM_first_error {A B : Type} (f : A -> result B) (l : list A) (e : exn) :
  mapM f l = Raise e ->
  exists before x after,
    l = before ++ x :: after /\ f x = Raise e
    /\ Forall (fun y => is_ok (f y) = true) before.
Proof.
  induction l as [|x l IH]; simpl; [discriminate|].
  destruct (f x) as [y|e'] eqn:Ex; simpl.
  - destruct (mapM f l) as [ys|e''] eqn:El; simpl; [discriminate|].
    intros [= ->]. destruct (IH eq_refl) as (before & x' & after & -> & Hx & Hb).
    exists (x :: before), x', after. split_and!; [reflexivity|exact Hx|].
    constructor; [by rewrite Ex|exact Hb].
  - intros [= ->]. exists [], x, l. by split_and!.
Qed.

(** X15: the response has one row per object of the page: never more rows
    than the collection has objects, and, for a start offset and a page
    length that are not negative, as many rows as the page length allows of
    the objects from the start offset on.  When the response fails, it fails
    with the error of the first object of the page whose row fails; objects
    outside the page play no part. *)
Theorem response_row_count (self : View) (object_list : list value)
  (total filtered_total : value) :
  (forall payload,
      get_json_response_object self object_list total filtered_total = Ok payload ->
      exists rows,
        payload = VDict [ ("sEcho", request_get self "sEcho");
                          ("iTotalRecords", total);
                          ("iTotalDisplayRecords", filtered_total);
                          ("aaData", VList rows) ]
        /\ length rows = length (paginate_object_list self object_list)
        /\ (length rows <= length object_list)%nat
        /\ (0 <= start_offset (datatable_options self) ->
            0 <= page_length (datatable_options self) ->
            length rows =
            Nat.min (Z.to_nat (page_length (datatable_options self)))
              (length object_list - Z.to_nat (start_offset (datatable_options self)))))
  /\ (forall e,
      get_json_response_object self object_list total filtered_total = Raise e ->
      exists before obj after,
        paginate_object_list self object_list = before ++ obj :: after
        /\ get_record_data self obj = Raise e
        /\ Forall (fun o => is_ok (get_record_data self o) = true) before).
Proof.
  split.
  - intros payload H. unfold get_json_response_object in H.
    destruct (mapM (get_record_data self) (paginate_object_list self object_list))
      as [rows|e] eqn:Erows; simpl in H; [|discriminate].
    injection H as <-. exists (map VDict rows).
    apply mapM_length in Erows. rewrite length_map, Erows.
    split_and!; [reflexivity|reflexivity| |].
    + apply paginate_length_le.
    + intros Hs Hl. rewrite paginate_take_drop by done.
      by rewrite length_take, length_drop.
  - intros e H. unfold get_json_response_object in H.
    destruct (mapM (get_record_data self) (paginate_object_list self object_list))
      as [rows|e'] eqn:Erows; simpl in H; [discriminate|].
    injection H as ->. by apply mapM_first_error.
Qed.


(** *** Paths *)

Lemma split_dunder_cons (c : ascii) (rest : string) :
  split_dunder (String c rest) =
  match rest with
  | String d rest' =>
      if Ascii.eqb c "_" && Ascii.eqb d "_" then "" :: split_dunder rest'
      else match split_dunder rest with
           | piece :: pieces => String c piece :: pieces
           | [] => [String c ""]
           end
  | EmptyString => [String c ""]
  end.
Proof.
  destruct rest as [|d rest'].
  - by destruct c as [[] [] [] [] [] [] [] []].
  - destruct c as [[] [] [] [] [] [] [] []]; try reflexivity.
    by destruct d as [[] [] [] [] [] [] [] []].
Qed.

Lemma split_dunder_not_nil (s : string) : split_dunder s <> [].
Proof.
  destruct s as [|c rest]; [discriminate|].
  rewrite split_dunder_cons. destruct rest as [|d rest']; [discriminate|].
  destruct (Ascii.eqb c "_" && Ascii.eqb d "_"); [discriminate|].
  by destruct (split_dunder (String d rest')).
Qed.

Lemma split_dunder_app (a b : string) :
  ends_with_underscore a = false ->
  split_dunder (a +:+ String "_" (String "_" b)) = split_dunder a ++ split_dunder b.
Proof.
  revert a.
  assert (H : forall a,
             (ends_with_underscore a = false ->
              split_dunder (a +:+ String "_" (String "_" b)) =
              split_dunder a ++ split_dunder b)
             /\ forall c,
                 ends_with_underscore (String c a) = false ->
                 split_dunder (String c a +:+ String "_" (String "_" b)) =
                 split_dunder (String c a) ++ split_dunder b).
  { induction a as [|d a [IH1 IH2]].
    - split; [reflexivity|]. intros c Hc. simpl in Hc.
      rewrite append_cons. change ("" +:+ String "_" (String "_" b))
        with (String "_" (String "_" b)).
      rewrite !split_dunder_cons. rewrite Hc. simpl.
      change (split_dunder (String "_" (String "_" b))) with ("" :: split_dunder b).
      reflexivity.
    - split; [apply IH2|]. intros c Hc.
      rewrite !append_cons. rewrite (split_dunder_cons c).
      rewrite (split_dunder_cons c (String d a)).
      destruct (Ascii.eqb c "_" && Ascii.eqb d "_") eqn:E.
      + simpl. f_equal. apply IH1.
        apply andb_true_iff in E as [_ Ed]. apply Ascii.eqb_eq in Ed. subst d.
        destruct a as [|x a]; [discriminate Hc|exact Hc].
      + rewrite <- append_cons. rewrite IH2 by exact Hc.
        pose proof (split_dunder_not_nil (String d a)) as Hne.
        destruct (split_dunder (String d a)); [done|reflexivity]. }
  intros a. apply H.
Qed.

Lemma reduce_app (step : value -> string -> result value) (obj : value)
  (bits1 bits2 : list string) :
  reduce step obj (bits1 ++ bits2) =
  (v <- reduce step obj bits1 ;; reduce step v bits2).
Proof.
  revert obj. induction bits1 as [|bit bits1 IH]; intros obj; simpl.
  { reflexivity. }
  destruct (step obj bit) as [v|e]; simpl; [apply IH|reflexivity].
Qed.

(** X8: a path is followed piece by piece: for a path [a] that does not
    end in an underscore, resolving the source field [a__b] on a row is
    resolving [b] on what the path [a] leads to from that row, and an
    exception on the way along [a] is the exception of the whole. *)
Theorem path_resolution_composes (step : value -> string -> result value)
  (instance : value) (a b : string) :
  ends_with_underscore a = false ->
  reduce step instance (split_dunder (a +:+ "__" +:+ b)) =
    (v <- reduce step instance (split_dunder a) ;;
     reduce step v (split_dunder b))
  /\ field_value step instance (VStr (a +:+ "__" +:+ b)) =
    (v <- reduce step instance (split_dunder a) ;;
     field_value step v (VStr b)).
Proof.
  intros Ha.
  assert (Hsplit : split_dunder (a +:+ "__" +:+ b) =
                   split_dunder a ++ split_dunder b)
    by (by apply split_dunder_app).
  split.
  - by rewrite Hsplit, reduce_app.
  - unfold field_value. simpl. rewrite Hsplit, reduce_app.
    by destruct (reduce step instance (split_dunder a)).
Qed.

(** *** Construction of the structure object *)

Lemma ordering_step_raises (options : DatatableOptions)
  (m : gmap string ColumnOrderingTuple) (i : nat) (name : string) (e : exn) :
  ordering_step options m i name = Raise e ->
  e = IndexError /\ name = "" /\ get_column_index options "" <> -1.
Proof.
  unfold ordering_step. intros H.
  destruct (get_column_index options (lstrip ["-"%char; "+"%char] name) =? -1)
    eqn:E; [discriminate|].
  destruct name as [|c name]; [|discriminate].
  simpl in *. injection H as <-. split_and!; [done|done|lia].
Qed.

Lemma ordering_loop_raises (options : DatatableOptions) (names : list string) :
  forall (i : nat) (m : gmap string ColumnOrderingTuple) (e : exn),
    ordering_loop options i names m = Raise e ->
    e = IndexError /\ "" ∈ names /\ get_column_index options "" <> -1.
Proof.
  induction names as [|n names IH]; intros i m e H; simpl in H; [discriminate|].
  destruct (ordering_step options m i n) as [m1|e1] eqn:E; simpl in H.
  - destruct (IH _ _ _ H) as (-> & Hin & Hidx). split_and!; [done|by right|done].
  - injection H as ->. apply ordering_step_raises in E as (-> & -> & Hidx).
    split_and!; [done|by left|done].
Qed.

(** X10: constructing the structure object raises only [IndexError], and it
    does so exactly when the ordering option has an empty name while the
    empty name resolves to a column: the first character of such a name is
    read and there is none. *)
Theorem structure_init_raises_iff (ajax_url : string)
  (options : DatatableOptions) (model : value) :
  (forall e, DatatableStructure_init ajax_url options model = Raise e ->
             e = IndexError)
  /\ (is_ok (DatatableStructure_init ajax_url options model) = false <->
      "" ∈ ordering options /\ get_column_index options "" <> -1).
Proof.
  assert (Hraise : forall e,
             DatatableStructure_init ajax_url options model = Raise e ->
             e = IndexError /\ "" ∈ ordering options
             /\ get_column_index options "" <> -1).
  { intros e H. unfold DatatableStructure_init in H.
    destruct (ordering options) as [|n names] eqn:En; [discriminate|].
    destruct (ordering_loop options 0 (n :: names) ∅) as [m|e'] eqn:E;
      simpl in H; [discriminate|].
    injection H as ->. by apply ordering_loop_raises in E. }
  split.
  - intros e H. by apply Hraise in H as [-> _].
  - split.
    + intros H.
      destruct (DatatableStructure_init ajax_url options model) as [s|e] eqn:E;
        [discriminate|].
      by destruct (Hraise e eq_refl) as (_ & ? & ?).
    + intros [Hin Hidx].
      destruct (DatatableStructure_init ajax_url options model) as [s|e] eqn:E;
        [|reflexivity].
      exfalso. unfold DatatableStructure_init in E.
      assert (Hloop : forall names i m,
                 "" ∈ names -> is_ok (ordering_loop options i names m) = false).
      { induction names as [|n names IH]; intros i m Hn.
        - by apply elem_of_nil in Hn.
        - simpl. destruct (ordering_step options m i n) as [m1|e1] eqn:E1;
            [|reflexivity]. simpl.
          apply elem_of_cons in Hn as [<-|Hn]; [|by apply IH].
          unfold ordering_step in E1. simpl in E1.
          destruct (get_column_index options "" =? -1) eqn:E2; [lia|discriminate]. }
      destruct (ordering options) as [|n names] eqn:En;
        [by apply elem_of_nil in Hin|].
      pose proof (Hloop (n :: names) 0%nat ∅ Hin) as Hfalse.
      destruct (ordering_loop options 0 (n :: names) ∅); simpl in *; discriminate.
Qed.


(** *** Column attributes and column info *)

Lemma init_ordering_lookup (ajax_url : string) (options : DatatableOptions)
  (model : value) :
  names_indexable options (ordering options) ->
  exists m,
    DatatableStructure_init ajax_url options model =
      Ok {| url := ajax_url; options := options; model := model;
            structure_ordering := m |}
    /\ (forall i name,
          ordering options !! i = Some name -> resolvable options name ->
          (forall i' name', (i < i')%nat -> ordering options !! i' = Some name' ->
                            plain_name_of name' <> plain_name_of name) ->
          m !! plain_name_of name = Some (ordering_entry options i name))
    /\ (forall k,
          (forall name, name ∈ ordering options -> plain_name_of name = k ->
                        ~ resolvable options name) ->
          m !! k = None).
Proof.
  intros Hidx.
  destruct (ordering_loop_spec options (ordering options) 0 ∅ Hidx)
    as (m & Hrun & _ & Hlast & Hframe).
  exists m. split_and!.
  - unfold DatatableStructure_init.
    destruct (ordering options) as [|n names] eqn:E.
    + simpl in Hrun. injection Hrun as <-. reflexivity.
    + rewrite Hrun. reflexivity.
  - intros i name Hi Hr Hlater. by rewrite (Hlast i name Hi Hr Hlater).
  - intros k Hk. rewrite (Hframe k Hk). apply lookup_empty.
Qed.

(** X11: on the structure object built from the options, the attributes of
    a column always hold [data-sortable] and [data-visible], each ["false"]
    exactly when the column's name is listed in [unsortable_columns] or in
    [hidden_columns]; the column named by a resolvable entry of the ordering
    (the last of that plain name) also holds [data-sorting], the position,
    the column index and the direction joined by commas; a column that no
    resolvable entry names holds no [data-sorting]. *)
Theorem column_attributes_of_ordering (ajax_url : string)
  (options : DatatableOptions) (model : value) :
  names_indexable options (ordering options) ->
  exists s,
    DatatableStructure_init ajax_url options model = Ok s
    /\ (forall i name,
          ordering options !! i = Some name -> resolvable options name ->
          (forall i' name', (i < i')%nat -> ordering options !! i' = Some name' ->
                            plain_name_of name' <> plain_name_of name) ->
          get_column_attributes s (VStr (plain_name_of name)) =
          Ok [ ("data-sortable",
                _javascript_boolean
                  (negb (bool_decide (plain_name_of name ∈ unsortable_columns options))));
               ("data-visible",
                _javascript_boolean
                  (negb (bool_decide (plain_name_of name ∈ hidden_columns options))));
               ("data-sorting",
                join "," [ pretty (Z.of_nat i);
                           pretty (get_column_index options (plain_name_of name));
                           if leading_minus name then "desc" else "asc" ]) ])
    /\ (forall k,
          (forall name, name ∈ ordering options -> plain_name_of name = k ->
                        ~ resolvable options name) ->
          get_column_attributes s (VStr k) =
          Ok [ ("data-sortable",
                _javascript_boolean (negb (bool_decide (k ∈ unsortable_columns options))));
               ("data-visible",
                _javascript_boolean (negb (bool_decide (k ∈ hidden_columns options)))) ])
    /\ (forall name attributes,
          get_column_attributes s name = Ok attributes ->
          assoc "data-sortable" attributes =
            Some (_javascript_boolean (negb (name_in name (unsortable_columns options))))
          /\ assoc "data-visible" attributes =
            Some (_javascript_boolean (negb (name_in name (hidden_columns options))))).
Proof.
  intros Hidx.
  destruct (init_ordering_lookup ajax_url options model Hidx)
    as (m & Hinit & Hlast & Hnone).
  eexists. split; [exact Hinit|]. split_and!.
  - intros i name Hi Hr Hlater.
    unfold get_column_attributes, ordering_lookup. simpl.
    by rewrite (Hlast i name Hi Hr Hlater).
  - intros k Hk. unfold get_column_attributes, ordering_lookup. simpl.
    by rewrite (Hnone k Hk).
  - intros name attributes H. unfold get_column_attributes in H.
    destruct (ordering_lookup _ name) as [[t|]|e]; simpl in H;
      try discriminate; injection H as <-; by split.
Qed.

Lemma get_column_attributes_ok (self : DatatableStructure) (name : value) :
  hashable name = true -> is_ok (get_column_attributes self name) = true.
Proof.
  intros H. unfold get_column_attributes, ordering_lookup. rewrite H.
  destruct name; simpl; try reflexivity.
  by destruct (structure_ordering self !! s).
Qed.

Lemma get_column_attributes_raises (self : DatatableStructure) (name : value)
  (e : exn) :
  get_column_attributes self name = Raise e -> e = TypeError.
Proof.
  unfold get_column_attributes, ordering_lookup.
  destruct (hashable name); simpl.
  - destruct name; simpl; try discriminate.
    by destruct (structure_ordering self !! s).
  - by intros [= <-].
Qed.

Lemma column_info_of_spec (self : DatatableStructure) (model_fields : list string)
  (column : value) :
  (forall entry,
      column_info_of self model_fields column = Ok entry ->
      exists c, get_field_definition column = Ok c
                /\ (truthy (pretty_name c) = true ->
                    info_pretty_name entry = pretty_name c))
  /\ (forall e,
      column_info_of self model_fields column = Raise e ->
      (e = invalid_format /\ get_field_definition column = Raise invalid_format)
      \/ e = TypeError)
  /\ (forall c,
      get_field_definition column = Ok c -> hashable (pretty_name c) = true ->
      is_ok (column_info_of self model_fields column) = true).
Proof.
  unfold column_info_of.
  destruct (get_field_definition column) as [c|e0] eqn:Ec; simpl.
  - set (names := match elements (fields c) with
                  | VStr field0 :: _ =>
                      if bool_decide (field0 ∈ model_fields)
                      then Ok (VStr field0,
                               if negb (truthy (pretty_name c))
                               then field_verbose_name (model self) field0
                               else pretty_name c)
                      else Ok (pretty_name c, pretty_name c)
                  | _ => Ok (pretty_name c, pretty_name c)
                  end).
    assert (Hnames : exists on pn,
               names = Ok (on, pn)
               /\ (truthy (pretty_name c) = true -> pn = pretty_name c)
               /\ (hashable (pretty_name c) = true -> hashable on = true)).
    { unfold names. destruct (elements (fields c)) as [|v rest];
        [by eexists _, _; split_and! |].
      destruct v; try (by eexists _, _; split_and!).
      destruct (bool_decide (s ∈ model_fields));
        [|by eexists _, _; split_and!].
      eexists _, _. split_and!; [reflexivity| |done].
      by intros ->. }
    destruct Hnames as (on & pn & -> & Hpn & Hhash). simpl.
    split_and!.
    + intros entry H.
      destruct (get_column_attributes self on); simpl in H; [|discriminate].
      injection H as <-. exists c. by split.
    + intros e H. right.
      destruct (get_column_attributes self on) eqn:Ea; simpl in H; [discriminate|].
      injection H as <-. by apply get_column_attributes_raises in Ea.
    + intros c' [= <-] Hh.
      pose proof (get_column_attributes_ok self on (Hhash Hh)) as Hok.
      by destruct (get_column_attributes self on).
  - split_and!; [discriminate| |discriminate].
    intros e [= <-]. left.
    assert (Hvalue : forall fd e, get_field_definition fd = Raise e -> e = invalid_format).
    { intros fd e H. destruct (is_tuple_or_list fd) eqn:E.
      - assert (exists b ys, fd = sequence b ys) as (b & ys & ->).
        { destruct fd; try discriminate;
            [by exists false; eexists|by exists true; eexists]. }
        rewrite get_field_definition_sequence in H.
        destruct_short ys; congruence.
      - rewrite get_field_definition_scalar in H by done. discriminate. }
    by rewrite (Hvalue _ _ Ec).
Qed.

Lemma mapM_all_is_ok {A B : Type} (f : A -> result B) (l : list A) :
  Forall (fun x => is_ok (f x) = true) l -> is_ok (mapM f l) = true.
Proof.
  induction 1 as [|x l Hx _ IH]; [reflexivity|]. simpl.
  destruct (f x); [|discriminate]. simpl.
  by destruct (mapM f l).
Qed.

(** X12: the column info of a structure object has one entry per declared
    column, in the order of the declaration, and an entry's display name is
    the column's own when it has one.  It raises the configuration error of
    the normaliser for a malformed column, [TypeError] for a column whose
    name cannot be hashed, and nothing else; it returns when every column
    normalises to a display name that can be hashed. *)
Theorem get_column_info_entries (self : DatatableStructure) :
  (forall info,
      get_column_info self = Ok info ->
      length info = length (columns (options self))
      /\ forall j column,
           columns (options self) !! j = Some column ->
           exists c entry,
             get_field_definition column = Ok c
             /\ info !! j = Some entry
             /\ (truthy (pretty_name c) = true ->
                 info_pretty_name entry = pretty_name c))
  /\ (forall e,
      get_column_info self = Raise e ->
      (e = invalid_format /\
       exists column, column ∈ columns (options self)
                      /\ get_field_definition column = Raise invalid_format)
      \/ e = TypeError)
  /\ ((forall column, column ∈ columns (options self) ->
         exists c, get_field_definition column = Ok c
                   /\ hashable (pretty_name c) = true) ->
      is_ok (get_column_info self) = true).
Proof.
  unfold get_column_info.
  set (model_fields := if truthy (model self) then model_field_names (model self)
                       else []).
  split_and!.
  - intros info H. pose proof (mapM_length _ _ _ H) as Hlen.
    split; [exact Hlen|]. intros j column Hj.
    apply mapM_Forall2 in H.
    destruct (Forall2_lookup_l _ _ _ _ _ H Hj) as (entry & Hentry & Hinfo).
    destruct (column_info_of_spec self model_fields column) as (Hok & _ & _).
    destruct (Hok entry Hinfo) as (c & Hc & Hname).
    by exists c, entry.
  - intros e H. apply mapM_first_error in H
      as (before & column & after & Hcols & Hcol & _).
    destruct (column_info_of_spec self model_fields column) as (_ & Herr & _).
    destruct (Herr e Hcol) as [[-> Hbad] | ->]; [left|by right].
    split; [done|]. exists column. split; [|done].
    rewrite Hcols. apply elem_of_app. right. by left.
  - intros Hall. apply mapM_all_is_ok. apply Forall_forall.
    intros column Hin. destruct (Hall column Hin) as (c & Hc & Hh).
    destruct (column_info_of_spec self model_fields column) as (_ & _ & Hok).
    by apply (Hok c).
Qed.


(** *** Options computed once *)

(** X17: once [LegacyDatatableMixin._get_datatable_options] has returned
    options, the instance holds them and every later call returns the same
    options without leaving the module: the queryset, the hook and the
    constructor are not called again, whatever the state of the world.  A
    call that raises stores no options, so the next call starts over; and a
    model the instance has is never replaced. *)
Theorem mixin_options_computed_once (self : MixinState) (w : World) :
  (forall options self' w',
      LegacyDatatableMixin__get_datatable_options self w = (Ok options, self', w') ->
      _datatable_options self' = Some options
      /\ forall w2,
           LegacyDatatableMixin__get_datatable_options self' w2 =
           (Ok options, self', w2))
  /\ (forall e self' w',
      _datatable_options self = None ->
      LegacyDatatableMixin__get_datatable_options self w = (Raise e, self', w') ->
      _datatable_options self' = None)
  /\ (forall r self' w',
      LegacyDatatableMixin__get_datatable_options self w = (r, self', w') ->
      is_none (self_model self) = false ->
      self_model self' = self_model self).
Proof.
  unfold LegacyDatatableMixin__get_datatable_options.
  split_and!.
  - intros options self' w' H.
    destruct (_datatable_options self) as [cached|] eqn:Ec.
    + injection H as <- <- <-. split; [exact Ec|]. intros w2. by rewrite Ec.
    + assert (Hs : _datatable_options self' = Some options).
      { repeat case_match; simplify_eq; reflexivity. }
      split; [exact Hs|]. intros w2. by rewrite Hs.
  - intros e self' w' Hnone H. rewrite Hnone in H.
    repeat case_match; simplify_eq; simpl; done.
  - intros r self' w' H Hmodel. rewrite Hmodel in H.
    repeat case_match; simplify_eq; reflexivity.
Qed.

(** *** Columns made hashable *)

Lemma convert_column_text (s : string) : convert_column (VStr s) = Ok None.
Proof.
  unfold convert_column. simpl.
  by destruct (characters s) as [|c1 [|c2 cs]].
Qed.

Lemma convert_column_converted (column converted : value) :
  convert_column column = Ok (Some converted) ->
  exists as_list first names rest,
    column = sequence as_list (first :: VList names :: rest)
    /\ converted = VTuple (first :: VTuple names :: rest).
Proof.
  intros H. destruct column as [| | |s|xs|xs|kvs| | |]; try discriminate;
    [rewrite convert_column_text in H; discriminate|unfold convert_column in H..].
  - destruct xs as [|first [|second rest]]; try discriminate.
    destruct second; try discriminate. injection H as <-.
    by exists false, first, xs, rest.
  - destruct xs as [|first [|second rest]]; try discriminate.
    destruct second; try discriminate. injection H as <-.
    by exists true, first, xs, rest.
  - destruct kvs as [|kv1 [|kv2 kvs]]; discriminate.
Qed.

Lemma convert_column_preserves (column converted : value) :
  convert_column column = Ok (Some converted) ->
  get_field_definition converted = get_field_definition column
  /\ convert_column converted = Ok None.
Proof.
  intros H.
  apply convert_column_converted in H as (b & first & names & rest & -> & ->).
  split; [|reflexivity].
  rewrite (get_field_definition_sequence false), (get_field_definition_sequence b).
  by destruct rest as [|c [|d rest]].
Qed.

Lemma convert_column_declaration (column : value) :
  is_declaration column = true -> is_ok (convert_column column) = true.
Proof.
  destruct column as [| | |s|xs|xs| | | |]; try discriminate;
    intros _; [by rewrite convert_column_text|unfold convert_column; simpl..].
  - destruct xs as [|first [|second rest]]; try reflexivity. by destruct second.
  - destruct xs as [|first [|second rest]]; try reflexivity. by destruct second.
Qed.

Lemma convert_columns_spec (columns : list value) :
  (forall columns',
      convert_columns true columns = (columns', None) ->
      Forall2 (fun c c' => get_field_definition c' = get_field_definition c
                           /\ convert_column c' = Ok None)
        columns columns')
  /\ (Forall (fun c => is_declaration c = true) columns ->
      snd (convert_columns true columns) = None).
Proof.
  induction columns as [|column rest [IH1 IH2]].
  { split; [|done]. intros columns' [= <-]. constructor. }
  split.
  - intros columns' H. simpl in H.
    destruct (convert_column column) as [[converted|]|e] eqn:Ec; [| |discriminate].
    + destruct (convert_columns true rest) as [rest' outcome] eqn:Er.
      injection H as <- ->. constructor; [|by apply IH1].
      by apply convert_column_preserves.
    + destruct (convert_columns true rest) as [rest' outcome] eqn:Er.
      injection H as <- ->. constructor; [|by apply IH1]. by split.
  - intros Hall. inversion Hall as [|? ? Hc Hrest]; subst. simpl.
    pose proof (convert_column_declaration column Hc) as Hok.
    destruct (convert_column column) as [[converted|]|e]; [| |discriminate].
    + destruct (convert_columns true rest) as [rest' outcome] eqn:Er.
      simpl. by apply IH2.
    + destruct (convert_columns true rest) as [rest' outcome] eqn:Er.
      simpl. by apply IH2.
Qed.

Lemma convert_columns_fixed (columns : list value) :
  Forall (fun c => convert_column c = Ok None) columns ->
  convert_columns true columns = (columns, None).
Proof.
  induction 1 as [|c columns Hc _ IH]; [reflexivity|].
  simpl. by rewrite Hc, IH.
Qed.

(** X13: when the options of a [LegacyConfigurationDatatableMixin] view hold
    a list of columns and the first call of [_get_datatable_options]
    returns, the options it returns are those of the hook with the columns
    replaced one for one: every column normalises exactly as the column it
    replaces (a list of source fields has become a tuple, nothing else has
    changed), and converting the new columns again changes nothing.  The
    call returns whenever every column is a text, a tuple or a list. *)
Theorem configuration_columns_converted (self : ConfigurationState)
  (w w' : World) (kvs : list (string * value)) (columns : list value) :
  configured_options self = None ->
  get_datatable_options w = (Ok (VDict kvs), w') ->
  assoc "columns" kvs = Some (VList columns) ->
  (forall options self' w'',
      LegacyConfigurationDatatableMixin__get_datatable_options self w =
        (Ok options, self', w'') ->
      exists columns',
        options = VDict (dict_set "columns" (VList columns') kvs)
        /\ configured_options self' = Some options
        /\ w'' = w'
        /\ length columns' = length columns
        /\ Forall2 (fun c c' => get_field_definition c' = get_field_definition c)
             columns columns'
        /\ convert_columns true columns' = (columns', None))
  /\ (Forall (fun c => is_declaration c = true) columns ->
      exists options self' w'',
        LegacyConfigurationDatatableMixin__get_datatable_options self w =
          (Ok options, self', w'')).
Proof.
  intros Hnone Hhook Hcols.
  unfold LegacyConfigurationDatatableMixin__get_datatable_options.
  rewrite Hnone, Hhook, Hcols.
  destruct (convert_columns true columns) as [columns' outcome] eqn:Ec.
  destruct (convert_columns_spec columns) as [Hspec Hdecl].
  split.
  - intros options self' w'' H.
    destruct outcome as [e|]; simpl in H; [discriminate|].
    injection H as <- <- <-. specialize (Hspec columns' Ec).
    exists columns'. split_and!; try reflexivity.
    + symmetry. by eapply Forall2_length.
    + eapply Forall2_impl; [exact Hspec|]. by intros c c' [? _].
    + apply convert_columns_fixed.
      eapply Forall2_Forall_r; [exact Hspec|].
      apply Forall_forall. by intros c _ c' [_ ?].
  - intros Hall. specialize (Hdecl Hall). rewrite Ec in Hdecl. simpl in Hdecl.
    subst outcome. simpl. by eexists _, _, _.
Qed.



(** *** Failure of a row *)

(** X18: a row is all or nothing.  When reading the [pk] of the object
    raises, the row raises that exception, whatever the columns; when the
    display value of any column raises, no row is returned; when the [pk]
    is read and the display value of the first column raises, the row
    raises that exception; and a resolver that returns an empty tuple or
    list fails its column with [IndexError]. *)
Theorem get_record_data_failure (self : View) (obj : value) :
  (forall e, getattr obj "pk" = Raise e -> get_record_data self obj = Raise e)
  /\ (forall j name,
      columns (datatable_options self) !! j = Some name ->
      is_ok (display_value self obj j name) = false ->
      is_ok (get_record_data self obj) = false)
  /\ (forall name e,
      is_ok (getattr obj "pk") = true ->
      columns (datatable_options self) !! 0%nat = Some name ->
      display_value self obj 0 name = Raise e ->
      get_record_data self obj = Raise e)
  /\ (forall j name values,
      get_column_data self j name obj = Ok values ->
      elements values = [] ->
      display_value self obj j name = Raise IndexError).
Proof.
  split_and!.
  - intros e H. unfold get_record_data. by rewrite H.
  - intros j name Hj Hfail.
    destruct (get_record_data self obj) as [row|e] eqn:Erow; [|reflexivity].
    apply get_record_data_row in Erow as (pk & displays & _ & [_ Hall] & _).
    destruct (Hall j name Hj) as (d & _ & Hd).
    simpl in Hd. rewrite Hd in Hfail. discriminate.
  - intros name e Hpk H0 Hraise. unfold get_record_data.
    destruct (getattr obj "pk") as [pk|e'] eqn:Epk; [|discriminate]. simpl.
    destruct (columns (datatable_options self)) as [|name0 rest]; [discriminate|].
    injection H0 as ->. simpl. unfold display_value in Hraise.
    destruct (get_column_data self 0 name obj) as [values|e'] eqn:Ev;
      simpl in *; [|by injection Hraise as ->].
    destruct (item0 values); simpl in *; [discriminate|by injection Hraise as ->].
  - intros j name values Hv He. unfold display_value, item0.
    rewrite Hv. simpl. by rewrite He.
Qed.


(** *** Keyword arguments of the datatable *)

Lemma assoc_not_elem_of {A : Type} (k : string) (l : list (string * A)) :
  k ∉ l.*1 -> assoc k l = None.
Proof.
  induction l as [|[k' a] l IH]; [reflexivity|].
  rewrite fmap_cons, not_elem_of_cons. simpl. intros [Hne Hk].
  destruct (String.eqb k k') eqn:E; [by apply String.eqb_eq in E|by apply IH].
Qed.

Lemma assoc_dict_set (k k' : string) (v : value) (d : list (string * value)) :
  assoc k' (dict_set k v d) = if String.eqb k' k then Some v else assoc k' d.
Proof.
  destruct (String.eqb k' k) eqn:E.
  - apply String.eqb_eq in E. subst. apply assoc_dict_set_eq.
  - apply assoc_dict_set_ne. intros ->. by rewrite String.eqb_refl in E.
Qed.

Lemma assoc_dict_update (k : string) (u : list (string * value)) :
  forall d, NoDup u.*1 ->
    assoc k (dict_update d u) =
    match assoc k u with
    | Some v => Some v
    | None => assoc k d
    end.
Proof.
  unfold dict_update.
  induction u as [|[k0 v0] u IH]; intros d Hnd; [reflexivity|].
  rewrite fmap_cons in Hnd. apply NoDup_cons in Hnd as [Hk0 Hnd].
  simpl. rewrite IH by done. rewrite assoc_dict_set.
  destruct (String.eqb k k0) eqn:E; [|reflexivity].
  apply String.eqb_eq in E. subst k0. by rewrite assoc_not_elem_of.
Qed.

(** X19: in the keyword arguments [get_datatable_kwargs] returns, the
    options of the view come last and win: a key of the options has the
    value the options give it; any other key has what the view supplies for
    it, [object_list], [view], [model], [callback_target], [query_config]
    and, on a view that has a request, [url], and failing that what the
    caller passed.  [query_config] is always there: the query parameters of
    the request, or an empty dictionary on a view without request. *)
Theorem datatable_kwargs_precedence (self : ConfigurationView)
  (kwargs : list (string * value)) (w w1 w2 : World) (object_list : value)
  (state : ConfigurationState) (options : list (string * value)) :
  get_queryset w = (Ok object_list, w1) ->
  LegacyConfigurationDatatableMixin__get_datatable_options (view_state self) w1 =
    (Ok (VDict options), state, w2) ->
  NoDup options.*1 ->
  exists result,
    get_datatable_kwargs self kwargs w =
      (Ok result,
       {| view_model := view_model self; view_request := view_request self;
          view_state := state |}, w2)
    /\ (forall k v, assoc k options = Some v -> assoc k result = Some v)
    /\ (forall k, assoc k options = None ->
          assoc k result =
          if String.eqb k "query_config" then
            Some (match view_request self with
                  | Some (_, GET) => GET
                  | None => VDict []
                  end)
          else if String.eqb k "url" then
            match view_request self with
            | Some (path, _) => Some path
            | None => assoc k kwargs
            end
          else if String.eqb k "object_list" then Some object_list
          else if String.eqb k "view" then Some VView
          else if String.eqb k "model" then Some (view_model self)
          else if String.eqb k "callback_target" then Some VView
          else assoc k kwargs)
    /\ is_Some (assoc "query_config" result).
Proof.
  intros Hq Hopts Hnd. unfold get_datatable_kwargs. rewrite Hq, Hopts.
  eexists. split; [reflexivity|].
  assert (Hview : forall k,
             assoc k (match view_request self with
                      | Some (path, GET) =>
                          dict_set "query_config" GET
                            (dict_set "url" path
                               (dict_update kwargs
                                  [("object_list", object_list); ("view", VView);
                                   ("model", view_model self);
                                   ("callback_target", VView)]))
                      | None =>
                          dict_set "query_config" (VDict [])
                            (dict_update kwargs
                               [("object_list", object_list); ("view", VView);
                                ("model", view_model self);
                                ("callback_target", VView)])
                      end) =
             if String.eqb k "query_config" then
               Some (match view_request self with
                     | Some (_, GET) => GET
                     | None => VDict []
                     end)
             else if String.eqb k "url" then
               match view_request self with
               | Some (path, _) => Some path
               | None => assoc k kwargs
               end
             else if String.eqb k "object_list" then Some object_list
             else if String.eqb k "view" then Some VView
             else if String.eqb k "model" then Some (view_model self)
             else if String.eqb k "callback_target" then Some VView
             else assoc k kwargs).
  { intros k. unfold dict_update. simpl.
    destruct (view_request self) as [[path GET]|]; rewrite !assoc_dict_set;
      repeat (case_match; try reflexivity).
    all: match goal with
         | E1 : String.eqb ?x ?a = true, E2 : String.eqb ?x ?b = false |- _ =>
             apply String.eqb_eq in E1; subst x; discriminate
         end. }
  split_and!.
  - intros k v Hk. rewrite assoc_dict_update by done. by rewrite Hk.
  - intros k Hk. rewrite assoc_dict_update by done. rewrite Hk. apply Hview.
  - rewrite assoc_dict_update by done.
    destruct (assoc "query_config" options); [done|].
    rewrite Hview. simpl. done.
Qed.


End Legacy.

(* ===================================================================== *)
(** ** The calls of the default resolver *)

Lemma mapM_ext {A B : Type} (f g : A -> result B) (l : list A) :
  (forall a, f a = g a) -> mapM f l = mapM g l.
Proof.
  intros Hfg. induction l as [|a l IH]; [reflexivity|].
  simpl. rewrite Hfg. destruct (g a); [|reflexivity]. by rewrite IH.
Qed.

Lemma reduce_ext (s1 s2 : value -> string -> result value) (obj : value)
  (bits : list string) :
  (forall o bit, s1 o bit = s2 o bit) -> reduce s1 obj bits = reduce s2 obj bits.
Proof.
  intros Hs. revert obj. induction bits as [|bit bits IH]; intros obj;
    [reflexivity|].
  simpl. rewrite Hs. destruct (s2 obj bit); [|reflexivity]. apply IH.
Qed.

(** X9: the default resolver calls what it meets on a path with no
    argument at all, positional or keyword, and calls neither a manager nor
    a callable marked [alters_data]: two function tables that agree on the
    calls without arguments give the same display value, or the same
    exception, for every row and column; and an attribute that is a manager
    or is marked [alters_data] is passed on uncalled, whatever calling it
    would do. *)
Theorem default_resolver_calls_without_arguments
  (py_repr : value -> string)
  (builtin_getattr : value -> string -> result value)
  (call1 call2 : fn_id -> list value -> list (string * value) -> result value)
  (instance : value) (column : FieldDefinitionTuple) :
  (forall f, call1 f [] [] = call2 f [] []) ->
  _get_column_data_default py_repr builtin_getattr call1 instance column =
  _get_column_data_default py_repr builtin_getattr call2 instance column
  /\ (forall obj bit f is_manager alters_data,
        getattr builtin_getattr obj bit = Ok (VCallable f is_manager alters_data) ->
        is_manager = true \/ alters_data = Some (VBool true) ->
        chain_lookup builtin_getattr call1 obj bit =
        Ok (VCallable f is_manager alters_data)).
Proof.
  intros Hcalls. split.
  - unfold _get_column_data_default, get_column_data_default_in.
    erewrite mapM_ext; [reflexivity|].
    intros field_name. unfold field_value.
    destruct field_name; try reflexivity. simpl.
    erewrite reduce_ext; [reflexivity|].
    intros o bit. unfold chain_lookup_in.
    destruct (getattr builtin_getattr o bit) as [v|e]; [|reflexivity].
    destruct v as [| | | | | | | | f is_manager alters_data |]; try reflexivity.
    destruct is_manager; [reflexivity|].
    destruct alters_data as [[| [] | | | | | | | |]|]; try reflexivity;
      apply Hcalls.
  - intros obj bit f is_manager alters_data Hget Hskip.
    unfold chain_lookup, chain_lookup_in. rewrite Hget.
    destruct Hskip as [-> | ->]; [reflexivity|].
    by destruct is_manager.
Qed.

(* ===================================================================== *)
(** ** The properties on the sample views and rows *)
(* ===================================================================== *)

Local Abbreviation R := sample_repr.
Local Abbreviation G := sample_builtin_getattr.
Local Abbreviation F := sample_call.
Local Abbreviation U := sample_unicode_alnum.
Local Abbreviation method0 := (VCallable 0%nat false None).

(** C1: a row that lacks the attribute a source field names, a related
    object whose descriptor raises [ObjectDoesNotExist], and a step past an
    attribute that is [None] all make the default resolver raise [NameError]
    for [ObjectDoesNotExist], the name in its handler that the module does
    not bind; nothing is absorbed as [None]. *)
Lemma missing_attribute_raises_name_error :
  getattr G ada "nickname" = Raise AttributeError
  /\ _get_column_data_default R G F ada (column_of ["nickname"]) =
     Raise (NameError "ObjectDoesNotExist")
  /\ getattr G ada "missing_city" = Raise ObjectDoesNotExist
  /\ _get_column_data_default R G F ada (column_of ["missing_city__name"]) =
     Raise (NameError "ObjectDoesNotExist")
  /\ getattr G ada "spouse" = Ok VNone
  /\ _get_column_data_default R G F ada (column_of ["spouse__first"]) =
     Raise (NameError "ObjectDoesNotExist")
  /\ get_column_data_default_in R G F ("ObjectDoesNotExist" :: module_globals) ada
       (column_of ["nickname"; "missing_city__name"; "spouse__first"; "first"]) =
     Ok (VStr "Ada", VStr "Ada").
Proof. split_and!; vm_compute; reflexivity. Qed.

(** C2: for the bare column ["street_name"], which has no display name, the
    dispatcher puts the absent display name into the text ["None"] and never
    falls back to the source field: a view that defines
    [get_column_street_name_data] gets the default resolver, reported as not
    custom, and the method that is found is [get_column_None_data]. *)
Lemma bare_column_method_not_found :
  get_field_definition (VStr "street_name") = Ok (column_of ["street_name"])
  /\ view_attrs street_view !! "get_column_street_name_data" = Some method0
  /\ lookup_name R (column_of ["street_name"]) = Ok (VStr "None")
  /\ _get_resolver_method R U street_view 0 (column_of ["street_name"]) =
     Ok (false, DefaultResolver)
  /\ _get_resolver_method R U none_view 0 (column_of ["street_name"]) =
     Ok (true, ResolverValue method0).
Proof. split_and!; vm_compute; reflexivity. Qed.

(** C3 on the declarations of the documentation: a display name with one
    field, a display name with two fields and an override, and a declaration
    of four elements. *)
Lemma get_field_definition_examples :
  get_field_definition (VTuple [VStr "name"]) =
    Ok {| pretty_name := VNone; fields := VTuple [VStr "name"]; callback := VNone |}
  /\ get_field_definition (VTuple [VStr "Pretty"; VStr "field"]) =
    Ok {| pretty_name := VStr "Pretty"; fields := VTuple [VStr "field"];
          callback := VNone |}
  /\ get_field_definition
       (VTuple [VStr "Pretty"; VList [VStr "a"; VStr "b"]; method0]) =
    Ok {| pretty_name := VStr "Pretty"; fields := VTuple [VStr "a"; VStr "b"];
          callback := method0 |}
  /\ get_field_definition (VTuple [VStr "a"; VStr "b"; VStr "c"; VStr "d"]) =
    Raise invalid_format
  /\ get_field_definition (VList [VStr "Pretty"; VNone]) =
    Ok {| pretty_name := VStr "Pretty"; fields := VTuple []; callback := VNone |}.
Proof.
  destruct get_field_definition_normalizes as (H1 & H2 & H3 & H4 & _).
  split_and!.
  - exact (H1 false (VStr "name")).
  - exact (H2 false (VStr "Pretty") (VStr "field")).
  - exact (H3 false (VStr "Pretty") (VList [VStr "a"; VStr "b"]) method0).
  - apply (H4 false [VStr "a"; VStr "b"; VStr "c"; VStr "d"]); simpl; lia.
  - exact (H2 true (VStr "Pretty") VNone).
Defined.


(** C5 on three columns and two rows. *)
Lemma ajax_response_two_rows :
  mapM (get_record_data R G F U city_view)
    (paginate_object_list city_view (items two_people)) = Ok two_rows
  /\ get_ajax_response_data R G F U city_view two_people =
     Ok (VDict [ ("sEcho", VStr "7");
                 ("iTotalRecords", VInt 100);
                 ("iTotalDisplayRecords", VInt 40);
                 ("aaData", VList (map VDict two_rows)) ])
  /\ Forall2 (row_record_of R G F U city_view) [ada; alan] two_rows.
Proof.
  assert (H : mapM (get_record_data R G F U city_view)
                (paginate_object_list city_view (items two_people)) = Ok two_rows)
    by (vm_compute; reflexivity).
  destruct (ajax_response_payload R G F U city_view two_people two_rows H)
    as [Hpayload Hrows].
  split_and!; [exact H|exact Hpayload|exact Hrows].
Defined.

(** C6 on page length 25 at start offset 50 of 100 elements. *)
Lemma paginate_third_page :
  0 <= start_offset (datatable_options page_view)
  /\ 0 <= page_length (datatable_options page_view)
  /\ paginate_object_list page_view (numbered 0 100) =
     elements_at_positions (numbered 0 100) 50 (50 + 25)
  /\ paginate_object_list page_view (numbered 0 100) = numbered 50 25.
Proof.
  assert (Hs : 0 <= start_offset (datatable_options page_view)) by (simpl; lia).
  assert (Hl : 0 <= page_length (datatable_options page_view)) by (simpl; lia).
  destruct (paginate_object_list_page page_view (numbered 0 100))
    as (_ & Hpage & _).
  destruct (Hpage Hs Hl) as [Hpositions Htake].
  split_and!; [exact Hs|exact Hl|exact Hpositions|exact Htake].
Defined.

(** C6, the claim as stated fails: with start offset 0 and page length -3,
    which is not -1, a collection of ten elements is cut to its first seven,
    whereas no position lies from 0 up to -3. *)
Lemma paginate_negative_page_length :
  start_offset (datatable_options negative_page_view) = 0
  /\ page_length (datatable_options negative_page_view) = -3
  /\ paginate_object_list negative_page_view (numbered 0 10) = numbered 0 7
  /\ elements_at_positions (numbered 0 10) 0 (0 + -3) = [].
Proof. split_and!; vm_compute; reflexivity. Qed.

(** C7 on a column of four source fields, one of which resolves to [None]
    and one to a callable. *)
Lemma default_resolver_joins_names :
  mapM (field_value R (chain_lookup G F) ada)
    (elements (fields (column_of ["first"; "spouse"; "city__label"; "last"]))) =
    Ok [VStr "Ada"; VNone; VStr "Springfield"; VStr "Lovelace"]
  /\ _get_column_data_default R G F ada
       (column_of ["first"; "spouse"; "city__label"; "last"]) =
     Ok (VStr "Ada Springfield Lovelace", VStr "Ada Springfield Lovelace").
Proof.
  assert (H : mapM (field_value R (chain_lookup G F) ada)
                (elements (fields (column_of ["first"; "spouse"; "city__label"; "last"]))) =
              Ok [VStr "Ada"; VNone; VStr "Springfield"; VStr "Lovelace"])
    by (vm_compute; reflexivity).
  destruct (default_resolver_collects R G F ada _ _ H)
    as (display & Hret & _ & _ & Hmany).
  split; [exact H|].
  rewrite Hret, Hmany by (simpl; lia). reflexivity.
Defined.

(** C8 on the ordering [-name], [bogus], [+id] over the columns [id],
    [city], [name]. *)
Lemma ordering_of_signed_names :
  names_indexable sample_get_column_index ordered_options (ordering ordered_options)
  /\ exists s,
       DatatableStructure_init sample_get_column_index "/people/" ordered_options VNone
         = Ok s
       /\ structure_ordering s !! "name" =
          Some {| order := 0; column_index := 2; direction := "desc" |}
       /\ structure_ordering s !! "id" =
          Some {| order := 2; column_index := 0; direction := "asc" |}
       /\ structure_ordering s !! "bogus" = None.
Proof.
  assert (Hidx : names_indexable sample_get_column_index ordered_options
                   (ordering ordered_options)).
  { intros name _ _. reflexivity. }
  split; [exact Hidx|].
  destruct (structure_ordering_built sample_get_column_index "/people/"
              ordered_options VNone Hidx)
    as (s & Hinit & _ & _ & Hlast & Hnone).
  exists s. split_and!.
  - exact Hinit.
  - apply (Hlast 0%nat "-name"); [reflexivity|vm_compute; discriminate|].
    intros [|[|[|i']]] name' Hlt Hname'; simpl in Hname'; try lia;
      try discriminate; injection Hname' as <-; vm_compute; discriminate.
  - apply (Hlast 2%nat "+id"); [reflexivity|vm_compute; discriminate|].
    intros [|[|[|i']]] name' Hlt Hname'; simpl in Hname'; try lia;
      discriminate.
  - apply Hnone. intros name Hin Hplain.
    unfold ordered_options in Hin. simpl in Hin.
    rewrite !elem_of_cons, elem_of_nil in Hin.
    destruct Hin as [->|[->|[->|[]]]]; vm_compute in Hplain; try discriminate.
    intros Hres. apply Hres. reflexivity.
Defined.

(** C8, the claim as stated fails: over the columns [id] and the column
    named by the empty text, the ordering holds [-id], which resolves to
    column 0, and the empty name, which resolves to column 1; no entry is
    recorded for either: the construction raises [IndexError], reading the
    first character of the empty name. *)
Lemma ordering_with_empty_name_raises :
  ordering unnamed_options = ["-id"; ""]
  /\ sample_get_column_index unnamed_options (lstrip ["-"; "+"]%char "-id") = 0
  /\ sample_get_column_index unnamed_options (lstrip ["-"; "+"]%char "") = 1
  /\ DatatableStructure_init sample_get_column_index "/people/" unnamed_options
       VNone = Raise IndexError.
Proof. split_and!; reflexivity. Qed.

(** C9 on a column whose two source fields are [None], and on a column with
    no source field. *)
Lemma default_resolver_empty_texts :
  (forall field_name,
      field_name ∈ elements (fields (column_of ["spouse"; "city__mayor"])) ->
      field_value R (chain_lookup G F) ada field_name = Ok VNone)
  /\ _get_column_data_default R G F ada (column_of ["spouse"; "city__mayor"]) =
     Ok (VStr "", VStr "")
  /\ _get_column_data_default R G F ada (column_of []) = Ok (VStr "", VStr "").
Proof.
  assert (H : forall field_name,
             field_name ∈ elements (fields (column_of ["spouse"; "city__mayor"])) ->
             field_value R (chain_lookup G F) ada field_name = Ok VNone).
  { intros field_name Hin. simpl in Hin.
    rewrite !elem_of_cons, elem_of_nil in Hin.
    destruct Hin as [->|[->|[]]]; reflexivity. }
  split_and!.
  - exact H.
  - exact (default_resolver_all_none R G F ada _ H).
  - apply (default_resolver_all_none R G F ada (column_of [])).
    intros field_name Hin. simpl in Hin. by apply elem_of_nil in Hin.
Defined.

(** C10 on a text, a number and the empty tuple. *)
Lemma get_field_definition_accepts_scalars :
  is_tuple_or_list (VStr "name") = false
  /\ get_field_definition (VStr "name") =
     Ok {| pretty_name := VNone; fields := VTuple [VStr "name"]; callback := VNone |}
  /\ get_field_definition (VInt 5) =
     Ok {| pretty_name := VNone; fields := VTuple [VInt 5]; callback := VNone |}
  /\ is_ok (get_field_definition (VTuple [])) = false.
Proof.
  destruct get_field_definition_raises_iff as (Hiff & _ & Hscalar & _).
  split_and!.
  - reflexivity.
  - exact (Hscalar (VStr "name") eq_refl).
  - exact (Hscalar (VInt 5) eq_refl).
  - apply Hiff. split; [reflexivity|left; reflexivity].
Defined.

(** C10, the claim as stated fails: [None] is no tuple and no list and is
    accepted, and its source fields are the empty tuple, not a sequence of
    one element. *)
Lemma get_field_definition_of_None :
  is_tuple_or_list VNone = false
  /\ get_field_definition VNone =
     Ok {| pretty_name := VNone; fields := VTuple []; callback := VNone |}.
Proof. split; reflexivity. Qed.

(** ** The string operations on small inputs *)

Example split_dunder_examples :
  split_dunder "city__name" = ["city"; "name"]
  /\ split_dunder "a___b" = ["a"; "_b"]
  /\ split_dunder "____" = [""; ""; ""]
  /\ split_dunder "" = [""].
Proof. split_and!; reflexivity. Qed.

Example strip_tags_examples :
  strip_tags "<b>x</b> < y <> z <a<b> w <e" = "x  z  w <e"
  /\ strip_tags "a<>b<i>c" = "a<>bc".
Proof. split; reflexivity. Qed.

Example characters_examples :
  characters "café — x²" = ["c"; "a"; "f"; "é"; " "; "—"; " "; "x"; "²"]
  /\ String.length "é" = 2%nat
  /\ length (characters "é") = 1%nat
  /\ concat_strings (characters "café — x²") = "café — x²".
Proof. split_and!; reflexivity. Qed.

Example lstrip_examples :
  lstrip ["-"; "+"]%char "-+-name" = "name"
  /\ lstrip ["-"; "+"]%char "na-me" = "na-me"
  /\ lstrip ["-"; "+"]%char "-" = "".
Proof. split_and!; reflexivity. Qed.

Example py_slice_examples :
  py_slice [1; 2; 3; 4; 5] 1 3 = [2; 3]
  /\ py_slice [1; 2; 3; 4; 5] 3 10 = [4; 5]
  /\ py_slice [1; 2; 3; 4; 5] 0 (-2) = [1; 2; 3]
  /\ py_slice [1; 2; 3; 4; 5] (-2) 5 = [4; 5]
  /\ py_slice [1; 2; 3; 4; 5] 4 2 = [].
Proof. split_and!; reflexivity. Qed.

(* ===================================================================== *)
(** ** Further properties on the sample views and rows *)

(** X1 on a declaration whose source fields hold a [None]. *)
Lemma get_field_definition_sparse_twice :
  get_field_definition sparse_declaration =
    Ok {| pretty_name := VStr "Pretty"; fields := VTuple [VStr "a"; VStr "b"];
          callback := VNone |}
  /\ get_field_definition
       (VTuple [VStr "Pretty"; VTuple [VStr "a"; VStr "b"]; VNone]) =
    Ok {| pretty_name := VStr "Pretty"; fields := VTuple [VStr "a"; VStr "b"];
          callback := VNone |}.
Proof.
  split; [reflexivity|].
  exact (get_field_definition_idempotent sparse_declaration _ eq_refl).
Defined.

(** X3 on the column whose override names a method of the view, and on a
    bare column of a view that defines no method for it. *)
Lemma resolver_of_city_column :
  _get_resolver_method R U city_view 2 city_column = Ok (true, ResolverValue method0)
  /\ _get_resolver_method R U city_view 0 (column_of ["first"]) =
     Ok (false, DefaultResolver).
Proof.
  split.
  - destruct (resolver_dispatch_order R U city_view 2 city_column)
      as (_ & Hname & _).
    apply (Hname "city_cell"); [reflexivity|discriminate].
  - destruct (resolver_dispatch_order R U city_view 0 (column_of ["first"]))
      as (_ & _ & Hnone & _).
    exact (Hnone eq_refl "None" eq_refl).
Defined.

(** X5 on pages of 20 and 30 rows from offset 10 of 100 elements. *)
Lemma paginate_two_pages :
  paginate_object_list (with_page page_view 10 20) (numbered 0 100)
    ++ paginate_object_list (with_page page_view 30 30) (numbered 0 100)
  = numbered 10 50
  /\ paginate_object_list (with_page page_view 10 50) (numbered 0 100)
     = numbered 10 50.
Proof.
  split; [|reflexivity].
  destruct (paginate_object_list_tiles page_view 10 20 30 (numbered 0 100))
    as [Htiles _]; [lia|lia|lia|].
  exact Htiles.
Defined.

(** X6 on a bare column, which falls to the default resolver. *)
Lemma get_column_data_of_first :
  get_column_data R G F U city_view 0 (VStr "first") ada =
  Ok (VTuple [VStr "Ada"; VStr "Ada"]).
Proof.
  destruct (get_column_data_returns_sequence R G F U city_view 0 (VStr "first") ada)
    as [_ Hdefault].
  destruct (Hdefault (column_of ["first"]) DefaultResolver eq_refl eq_refl)
    as [Hdata _].
  exact Hdata.
Defined.

(** X7 on the column whose override is the method [city_cell]: with a
    preload hook that returns keyword arguments, with one that returns two
    positional arguments, and with the empty hook and a method that returns
    marked-up text. *)
Lemma get_column_data_of_city_cell :
  get_column_data R G echo_call U (preloading_view hook_kwargs) 2
    city_declaration ada =
  Ok (VList [ada; VStr "Springfield"; VInt 7; city_declaration; VView])
  /\ get_column_data R G echo_call U
       (preloading_view (VTuple [VInt 1; VInt 2])) 2 city_declaration ada =
     Ok (VList [ada; VInt 1; VInt 2; VStr "Springfield"; VNone;
                city_declaration; VView])
  /\ get_column_data R G F U city_view 2 city_declaration ada =
     Ok (VTuple [VStr "<b>custom</b>"; VStr "custom"]).
Proof.
  split_and!.
  - destruct (custom_resolver_call R G echo_call U (preloading_view hook_kwargs) 2
                city_declaration ada city_column 0%nat false None
                hook_kwargs (VStr "Springfield")
                eq_refl eq_refl eq_refl eq_refl)
      as (args & preloaded & kwargs & Hdict & _ & _ & Hdefault & Hfield & Hview
          & Hrest & _ & Hsequence & _).
    destruct (Hdict _ eq_refl) as [-> ->].
    apply Hsequence; [|reflexivity].
    unfold echo_call. simpl. rewrite Hdefault, Hfield, Hview.
    rewrite (Hrest "extra") by discriminate. reflexivity.
  - destruct (custom_resolver_call R G echo_call U
                (preloading_view (VTuple [VInt 1; VInt 2])) 2
                city_declaration ada city_column 0%nat false None
                (VTuple [VInt 1; VInt 2]) (VStr "Springfield")
                eq_refl eq_refl eq_refl eq_refl)
      as (args & preloaded & kwargs & _ & Htuple & _ & Hdefault & Hfield & Hview
          & Hrest & _ & Hsequence & _).
    destruct (Htuple eq_refl) as [-> ->].
    apply Hsequence; [|reflexivity].
    unfold echo_call. simpl. rewrite Hdefault, Hfield, Hview.
    rewrite (Hrest "extra") by discriminate. reflexivity.
  - destruct (custom_resolver_call R G F U city_view 2 city_declaration ada
                city_column 0%nat false None (VTuple []) (VStr "Springfield")
                eq_refl eq_refl eq_refl eq_refl)
      as (args & preloaded & kwargs & _ & _ & _ & _ & _ & _ & _ & _ & _ & Hscalar).
    destruct (Hscalar (VStr "<b>custom</b>") eq_refl eq_refl) as [Hdata _].
    exact Hdata.
Defined.

(** X8 on the path from a person to the name of the city. *)
Lemma city_name_by_steps :
  ends_with_underscore "city" = false
  /\ reduce (chain_lookup G F) ada (split_dunder "city") = Ok sample_city
  /\ field_value R (chain_lookup G F) ada (VStr "city__name") =
     field_value R (chain_lookup G F) sample_city (VStr "name").
Proof.
  split_and!; [reflexivity|reflexivity|].
  destruct (path_resolution_composes R (chain_lookup G F) ada "city" "name" eq_refl)
    as [_ Hfield].
  exact Hfield.
Defined.

(** X9 on two function tables that differ on the calls with arguments. *)
Lemma default_resolver_strict_call :
  (forall f, sample_call f [] [] = strict_call f [] [])
  /\ sample_call 2%nat [ada] [] <> strict_call 2%nat [ada] []
  /\ _get_column_data_default R G strict_call ada (column_of ["city__label"]) =
     Ok (VStr "Springfield", VStr "Springfield").
Proof.
  assert (H : forall f, sample_call f [] [] = strict_call f [] [])
    by reflexivity.
  split_and!; [exact H|discriminate|].
  destruct (default_resolver_calls_without_arguments R G sample_call strict_call
              ada (column_of ["city__label"]) H) as [Hsame _].
  rewrite <- Hsame. reflexivity.
Defined.

(** X10 on an ordering with an empty name over a column named by the empty
    text. *)
Lemma structure_init_empty_name :
  "" ∈ ordering unnamed_options
  /\ sample_get_column_index unnamed_options "" <> -1
  /\ is_ok (DatatableStructure_init sample_get_column_index "/people/"
              unnamed_options VNone) = false
  /\ DatatableStructure_init sample_get_column_index "/people/"
       unnamed_options VNone = Raise IndexError.
Proof.
  assert (Hin : "" ∈ ordering unnamed_options).
  { apply list_elem_of_further, list_elem_of_here. }
  assert (Hidx : sample_get_column_index unnamed_options "" <> -1)
    by discriminate.
  destruct (structure_init_raises_iff sample_get_column_index "/people/"
              unnamed_options VNone) as [_ Hiff].
  split_and!; [exact Hin|exact Hidx| |reflexivity].
  apply Hiff. split; [exact Hin|exact Hidx].
Defined.

(** X11 on the ordering [-name], [bogus], [+id] over the columns [id],
    [city], [name]. *)
Lemma column_attributes_of_signed_names :
  exists s,
    DatatableStructure_init sample_get_column_index "/people/" ordered_options VNone
      = Ok s
    /\ get_column_attributes R s (VStr "name") =
       Ok [ ("data-sortable", "true"); ("data-visible", "true");
            ("data-sorting", "0,2,desc") ]
    /\ get_column_attributes R s (VStr "city") =
       Ok [ ("data-sortable", "true"); ("data-visible", "true") ].
Proof.
  assert (Hidx : names_indexable sample_get_column_index ordered_options
                   (ordering ordered_options)).
  { intros name _ _. reflexivity. }
  destruct (column_attributes_of_ordering R sample_get_column_index "/people/"
              ordered_options VNone Hidx)
    as (s & Hinit & Hlast & Hnone & _).
  exists s. split_and!.
  - exact Hinit.
  - apply (Hlast 0%nat "-name"); [reflexivity|vm_compute; discriminate|].
    intros [|[|[|i']]] name' Hlt Hname'; simpl in Hname'; try lia;
      try discriminate; injection Hname' as <-; vm_compute; discriminate.
  - apply (Hnone "city"). intros name Hin Hplain.
    unfold ordered_options in Hin. simpl in Hin.
    rewrite !elem_of_cons, elem_of_nil in Hin.
    destruct Hin as [->|[->|[->|[]]]]; vm_compute in Hplain; discriminate.
Defined.

(** X12 on a structure of three columns, and on one with a column of four
    elements. *)
Lemma column_info_of_people :
  (exists info,
      get_column_info R sample_flatatt sample_model_field_names
        sample_field_verbose_name people_structure = Ok info
      /\ length info = 3%nat
      /\ map info_pretty_name info =
         [VStr "the first"; VStr "Full name"; VStr "City"])
  /\ exists column,
       column ∈ columns (options broken_structure)
       /\ get_field_definition column = Raise invalid_format.
Proof.
  split.
  - destruct (get_column_info_entries R sample_flatatt sample_model_field_names
                sample_field_verbose_name people_structure) as (Hok & _ & _).
    eexists. split; [reflexivity|].
    split; [|reflexivity].
    exact (proj1 (Hok _ eq_refl)).
  - destruct (get_column_info_entries R sample_flatatt sample_model_field_names
                sample_field_verbose_name broken_structure) as (_ & Hraise & _).
    destruct (Hraise invalid_format eq_refl) as [[_ Hcolumn]|Htype];
      [exact Hcolumn|discriminate Htype].
Defined.

(** X13 on raw options whose columns hold lists of source fields. *)
Lemma configuration_hashes_raw_columns :
  exists columns',
    LegacyConfigurationDatatableMixin__get_datatable_options nat
      (counted_hook (VDict raw_options)) fresh_configuration 0%nat =
    (Ok (VDict hashed_options),
     {| configured_options := Some (VDict hashed_options) |}, 1%nat)
    /\ VDict hashed_options = VDict (dict_set "columns" (VList columns') raw_options)
    /\ Forall2 (fun c c' => get_field_definition c' = get_field_definition c)
         raw_columns columns'.
Proof.
  destruct (configuration_columns_converted nat (counted_hook (VDict raw_options))
              fresh_configuration 0%nat 1%nat raw_options raw_columns
              eq_refl eq_refl eq_refl) as [Hok _].
  destruct (Hok (VDict hashed_options)
              {| configured_options := Some (VDict hashed_options) |} 1%nat eq_refl)
    as (columns' & Hoptions & _ & _ & _ & Hsame & _).
  exists columns'. split_and!; [reflexivity|exact Hoptions|exact Hsame].
Defined.


(** X15 on two rows. *)
Lemma response_of_two_people :
  exists rows,
    get_json_response_object R G F U city_view [ada; alan] (VInt 100) (VInt 40) =
    Ok (VDict [ ("sEcho", VStr "7"); ("iTotalRecords", VInt 100);
                ("iTotalDisplayRecords", VInt 40); ("aaData", VList rows) ])
    /\ length rows = 2%nat.
Proof.
  destruct (response_row_count R G F U city_view [ada; alan] (VInt 100) (VInt 40))
    as [Hok _].
  destruct (Hok _ eq_refl) as (rows & Hpayload & Hlen & _).
  exists rows. split; [|exact Hlen].
  change (Ok (VDict [ ("sEcho", VStr "7"); ("iTotalRecords", VInt 100);
                      ("iTotalDisplayRecords", VInt 40);
                      ("aaData", VList (map VDict two_rows)) ]) =
          Ok (VDict [ ("sEcho", VStr "7"); ("iTotalRecords", VInt 100);
                      ("iTotalDisplayRecords", VInt 40); ("aaData", VList rows) ])).
  f_equal. exact Hpayload.
Defined.

(** X16 on the record of the first of two rows. *)
Lemma record_of_ada_by_key :
  get_record_data R G F U city_view ada =
    Ok [ ("DT_RowId", VInt 1); ("0", VStr "Ada"); ("1", VStr "Ada Lovelace");
         ("2", VStr "<b>custom</b>") ]
  /\ exists pk,
       getattr G ada "pk" = Ok pk
       /\ assoc "DT_RowId"
            [ ("DT_RowId", VInt 1); ("0", VStr "Ada"); ("1", VStr "Ada Lovelace");
              ("2", VStr "<b>custom</b>") ] = Some pk.
Proof.
  split; [reflexivity|].
  exact (proj1 (get_record_data_lookup R G F U city_view ada _ eq_refl)).
Defined.

(** X17 on an instance without model and without options. *)
Lemma mixin_options_second_call :
  LegacyDatatableMixin__get_datatable_options nat sample_queryset_model
    (counted_hook VNone) sample_new_DatatableOptions fresh_mixin 0%nat =
  (Ok DEFAULT_OPTIONS,
   {| self_model := sample_model; self_GET := ∅;
      _datatable_options := Some DEFAULT_OPTIONS |}, 1%nat)
  /\ LegacyDatatableMixin__get_datatable_options nat sample_queryset_model
       (counted_hook VNone) sample_new_DatatableOptions
       {| self_model := sample_model; self_GET := ∅;
          _datatable_options := Some DEFAULT_OPTIONS |} 1%nat =
     (Ok DEFAULT_OPTIONS,
      {| self_model := sample_model; self_GET := ∅;
         _datatable_options := Some DEFAULT_OPTIONS |}, 1%nat).
Proof.
  split; [reflexivity|].
  destruct (mixin_options_computed_once nat sample_queryset_model
              (counted_hook VNone) sample_new_DatatableOptions fresh_mixin 0%nat)
    as (Hok & _ & _).
  destruct (Hok _ _ _ eq_refl) as [_ Hlater].
  exact (Hlater 1%nat).
Defined.

(** X18 on a view whose second column reads an attribute that raises, and
    on a view whose first column has an override that returns the empty
    tuple. *)
Lemma record_of_failing_view :
  columns (datatable_options failing_view) !! 1%nat = Some (VStr "missing_city")
  /\ is_ok (display_value R G F U failing_view ada 1 (VStr "missing_city")) = false
  /\ is_ok (get_record_data R G F U failing_view ada) = false
  /\ get_record_data R G empty_call U override_view ada = Raise IndexError.
Proof.
  destruct (get_record_data_failure R G F U failing_view ada) as (_ & Hany & _ & _).
  destruct (get_record_data_failure R G empty_call U override_view ada)
    as (_ & _ & Hfirst & Hempty).
  split_and!; [reflexivity|reflexivity| |].
  - exact (Hany 1%nat (VStr "missing_city") eq_refl eq_refl).
  - apply (Hfirst (VTuple [VStr "Name"; VStr "first"; VCallable 0%nat false None]));
      [reflexivity|reflexivity|].
    apply (Hempty 0%nat _ (VTuple [])); reflexivity.
Defined.

(** X19 on a view with a request, whose options hold [columns] and [model],
    and a caller that passes [model], [extra] and [url]. *)
Lemma datatable_kwargs_of_people_view :
  exists result state,
    get_datatable_kwargs nat (counted_hook (VDict raw_options)) sample_get_queryset
      sample_update_from people_view caller_kwargs 0%nat =
    (Ok result, state, 1%nat)
    /\ assoc "model" result = Some (VStr "Person")
    /\ assoc "columns" result = Some (VList hashed_columns)
    /\ assoc "url" result = Some (VStr "/people/")
    /\ assoc "extra" result = Some (VInt 1)
    /\ assoc "query_config" result = Some (VDict [("q", VStr "ada")]).
Proof.
  assert (Hkeys : NoDup hashed_options.*1).
  { apply NoDup_cons. split; [|apply NoDup_singleton].
    intros Hin. apply list_elem_of_singleton in Hin. discriminate Hin. }
  destruct (datatable_kwargs_precedence nat (counted_hook (VDict raw_options))
              sample_get_queryset sample_update_from people_view caller_kwargs
              0%nat 0%nat 1%nat (VList [ada; alan])
              {| configured_options := Some (VDict hashed_options) |}
              hashed_options eq_refl eq_refl Hkeys)
    as (result & Hcall & Hoptions & Hother & _).
  exists result. eexists. split_and!.
  - exact Hcall.
  - exact (Hoptions "model" _ eq_refl).
  - exact (Hoptions "columns" _ eq_refl).
  - exact (Hother "url" eq_refl).
  - exact (Hother "extra" eq_refl).
  - exact (Hother "query_config" eq_refl).
Defined.
